(** * Attendance app: the two servers (app.py, server.py) over one SQLite table

    A shallow embedding of the request handlers of [server.py] (module
    [Server]) and [app.py] (module [App]), of the [attendance] table they
    share (module [Sqlite]) and of the Python values that reach them (module
    [Py]), followed by the properties of the specification.

    Conventions.  A Python [str] is a Rocq [string] holding its UTF-8 bytes
    (a header value: its latin-1 bytes).  A Python [float] is a [spec_float].
    What the handlers obtain from the outside world (the clock, [uuid4], the
    environment, the template directory) is an argument of the handler. *)

From Stdlib Require Import ZArith String Ascii List Permutation Sorted Lia.
From Stdlib Require Import SpecFloat DecimalString OrderedTypeEx.
From stdpp Require Import gmap strings list fin_maps.

Local Open Scope Z_scope.
Local Open Scope string_scope.
Local Open Scope list_scope.

#[local] Set Warnings "-register-all".

(* ===================================================================== *)
(** ** Exceptions *)

(** The exceptions a handler can let escape. *)
Inductive exn :=
| AttributeError      (* [.get] on a value that is not a dict *)
| IndexError          (* [[0]] on an empty list *)
| ValueError          (* [int] of a Content-Length that is not a number *)
| UnicodeDecodeError  (* [decode] of a body that is not UTF-8 *)
| ProgrammingError    (* sqlite3: a parameter of an unsupported type *)
| UnicodeEncodeError  (* sqlite3: a [str] that UTF-8 cannot encode *)
| OverflowError       (* sqlite3: an [int] outside 64 bits *)
| IntegrityError      (* sqlite3: NOT NULL constraint failed *)
| FileNotFoundError   (* [open] on a missing template *)
| TemplateNotFound.   (* [render_template] on a missing template *)

Inductive result (A : Type) :=
| Ok (a : A)
| Raise (e : exn).
Arguments Ok {A} a.
Arguments Raise {A} e.

Definition bind {A B} (r : result A) (k : A → result B) : result B :=
  match r with
  | Ok a => k a
  | Raise e => Raise e
  end.

Notation "'let*' x ':=' r 'in' k" := (bind r (fun x => k))
  (at level 10, x name, r at level 100, k at level 200).

(* ===================================================================== *)
(** ** Strings *)

Module Str.

(** [sep.join(lines)] *)
Fixpoint join (sep : string) (lines : list string) : string :=
  match lines with
  | [] => ""
  | [l] => l
  | l :: rest => l +:+ sep +:+ join sep rest
  end.

(** [s.split(sep)] for a separator of one character: never empty. *)
Fixpoint split (sep : ascii) (s : string) : list string :=
  match s with
  | EmptyString => [""]
  | String c s' =>
      if Ascii.eqb c sep then "" :: split sep s'
      else match split sep s' with
           | h :: t => String c h :: t
           | [] => [String c ""]
           end
  end.

(** [str.isspace] on a character below 256: TAB..CR, FS..US, space, NEL
    and the no-break space. *)
Definition isspace (c : ascii) : bool :=
  let n := N_of_ascii c in
  (N.leb 9 n && N.leb n 13) || (N.leb 28 n && N.leb n 32)
  || N.eqb n 133 || N.eqb n 160.

Fixpoint lstrip (s : string) : string :=
  match s with
  | EmptyString => ""
  | String c s' => if isspace c then lstrip s' else s
  end.

Fixpoint rstrip (s : string) : string :=
  match s with
  | EmptyString => ""
  | String c s' =>
      match rstrip s' with
      | EmptyString => if isspace c then "" else String c ""
      | r => String c r
      end
  end.

(** [s.strip()] *)
Definition strip (s : string) : string := rstrip (lstrip s).

(** [s.split(sep, 1)[1]]: what follows the first [sep], if there is one. *)
Fixpoint after (sep : ascii) (s : string) : option string :=
  match s with
  | EmptyString => None
  | String c s' => if Ascii.eqb c sep then Some s' else after sep s'
  end.

(** [s[n:]] *)
Fixpoint drop (n : nat) (s : string) : string :=
  match n, s with
  | O, _ => s
  | S _, EmptyString => ""
  | S k, String _ s' => drop k s'
  end.

(** [c in s] *)
Fixpoint mem (c : ascii) (s : string) : bool :=
  match s with
  | EmptyString => false
  | String d s' => Ascii.eqb c d || mem c s'
  end.

(** [s.replace(old, new)] for a non-empty [old]; [skip] counts the
    characters of a match that are still to be passed over. *)
Fixpoint replace_from (skip : nat) (old new s : string) : string :=
  match s with
  | EmptyString => ""
  | String c s' =>
      match skip with
      | S k => replace_from k old new s'
      | O =>
          if String.prefix old s
          then new +:+ replace_from (String.length old - 1) old new s'
          else String c (replace_from O old new s')
      end
  end.

Definition replace (old new s : string) : string := replace_from O old new s.

(** [s.lstrip(c)] for one character [c] *)
Fixpoint lstrip_char (c : ascii) (s : string) : string :=
  match s with
  | EmptyString => ""
  | String d s' => if Ascii.eqb d c then lstrip_char c s' else s
  end.

(** The loop of [posixpath.normpath] over the components of a path that
    does not start with a slash; [new_comps] is kept last component
    first. *)
Definition normpath_step (new_comps : list string) (comp : string)
    : list string :=
  if String.eqb comp "" || String.eqb comp "." then new_comps
  else
    match new_comps with
    | [] => [comp]
    | last :: before =>
        if negb (String.eqb comp "..") || String.eqb last ".."
        then comp :: new_comps
        else before
    end.

(** [os.path.normpath(path)] for a path that does not start with a slash *)
Definition normpath (path : string) : string :=
  match join "/" (rev (fold_left normpath_step (split "/" path) [])) with
  | EmptyString => "."
  | p => p
  end.

(** [str(z)] of an [int] *)
Definition of_Z (z : Z) : string := NilZero.string_of_int (Z.to_int z).

End Str.

(* ===================================================================== *)
(** ** Python values, as [json.loads] and [request.get_json] return them *)

Module Py.

(** A [str] is modelled by its characters; the one kind of [str] the
    program treats differently from the others is kept apart: a [str] that
    holds a lone surrogate, which [json.loads] returns for a text such as
    ["\ud800"] and which has no UTF-8 encoding ([StrSurrogate]). *)
Inductive value :=
| None_
| Bool (b : bool)
| Int (z : Z)
| Float (f : spec_float)
| Str (s : string)
| StrSurrogate
| List (items : list value)
| Dict (d : gmap string value).

Definition float_is_zero (f : spec_float) : bool :=
  match f with
  | S754_zero _ => true
  | _ => false
  end.

(** [bool(v)]: what [not v] and [if v] test. *)
Definition truthy (v : value) : bool :=
  match v with
  | None_ => false
  | Bool b => b
  | Int z => negb (Z.eqb z 0)
  | Float f => negb (float_is_zero f)
  | Str s => negb (String.eqb s "")
  | StrSurrogate => true
  | List items => negb (Nat.eqb (length items) 0)
  | Dict d => negb (Nat.eqb (size d) 0)
  end.

(** [data.get(key)]: only a dict has the method. *)
Definition get (data : value) (key : string) : result value :=
  match data with
  | Dict d => Ok (default None_ (d !! key))
  | _ => Raise AttributeError
  end.

(** [v == s] for a [str] literal [s]. *)
Definition eq_str (v : value) (s : string) : bool :=
  match v with
  | Str t => String.eqb t s
  | _ => false
  end.

(** [v in ('in', 'out')], the same for the list [['in', 'out']]. *)
Definition in_strs (v : value) (choices : list string) : bool :=
  existsb (eq_str v) choices.

End Py.

(* ===================================================================== *)
(** ** Text forms of floating-point numbers *)

(** The three conversions between [float] and text the program relies on
    and does not implement: SQLite's rendering of a REAL stored in a TEXT
    column, SQLite's reading of a numeric literal stored in a REAL column,
    and Python's [str] of a [float].  Every property below holds whatever
    they are. *)
Class FloatText := {
  sqlite_text_of_real : spec_float → string;
  sqlite_real_of_text : string → option spec_float;
  py_str_of_float : spec_float → string
}.

(* ===================================================================== *)
(** ** The attendance table *)

Module Sqlite.

(** A value as SQLite holds it (the program never binds a BLOB). *)
Inductive sqlval :=
| Null
| Integer (z : Z)
| Real (f : spec_float)
| Text (s : string).

(** How the [sqlite3] module binds a Python value to a [?]: [None], [int]
    (hence [bool]), [float] and [str] are supported, an [int] must fit
    64 bits, a NaN is bound as NULL, a [str] is encoded in UTF-8, which a
    lone surrogate has not; anything else is refused. *)
Definition bind_param (v : Py.value) : result sqlval :=
  match v with
  | Py.None_ => Ok Null
  | Py.Bool b => Ok (Integer (if b then 1 else 0))
  | Py.Int z =>
      if Z.leb (- 2 ^ 63) z && Z.ltb z (2 ^ 63) then Ok (Integer z)
      else Raise OverflowError
  | Py.Float S754_nan => Ok Null
  | Py.Float f => Ok (Real f)
  | Py.Str s => Ok (Text s)
  | Py.StrSurrogate => Raise UnicodeEncodeError
  | Py.List _ => Raise ProgrammingError
  | Py.Dict _ => Raise ProgrammingError
  end.

(** [latitude REAL]: an integer is kept as the nearest double. *)
Definition real_of_int (z : Z) : spec_float :=
  binary_normalize 53 1024 z 0 false.

(** [latitude REAL]: a REAL column does not keep the sign of a zero. *)
Definition real_stored (f : spec_float) : spec_float :=
  match f with
  | S754_zero _ => S754_zero false
  | _ => f
  end.

Section Affinity.
Context `{FloatText}.

(** A column [TEXT NOT NULL]: numbers are stored in their text form. *)
Definition text_not_null (v : sqlval) : result string :=
  match v with
  | Null => Raise IntegrityError
  | Integer z => Ok (Str.of_Z z)
  | Real f => Ok (sqlite_text_of_real f)
  | Text s => Ok s
  end.

(** A column [REAL]: numbers become doubles, and so does a text that
    reads as a number; any other text is stored as it is. *)
Definition real_column (v : sqlval) : sqlval :=
  match v with
  | Null => Null
  | Integer z => Real (real_stored (real_of_int z))
  | Real f => Real (real_stored f)
  | Text s =>
      match sqlite_real_of_text s with
      | Some f => Real (real_stored f)
      | None => Text s
      end
  end.
End Affinity.

(** A row of [attendance]. *)
Record Row := {
  id : Z;
  employee_id : string;
  action : string;
  timestamp : string;
  latitude : sqlval;
  longitude : sqlval
}.

(** The table: its rows in rowid order, and the largest rowid ever given
    out (what AUTOINCREMENT keeps in [sqlite_sequence]).  Rowids are kept
    unbounded; the 64-bit limit of SQLite is out of reach of the
    program's one-row inserts. *)
Record Table := {
  rows : list Row;
  seq : Z
}.

(** [init_db]: CREATE TABLE IF NOT EXISTS. *)
Definition empty : Table := {| rows := []; seq := 0 |}.

Definition init_db (existing : option Table) : Table := default empty existing.

Definition max_rowid (rs : list Row) : Z :=
  fold_right (fun r m => Z.max (id r) m) 0 rs.

(** AUTOINCREMENT: one more than every rowid that ever existed. *)
Definition next_rowid (t : Table) : Z :=
  Z.max (seq t) (max_rowid (rows t)) + 1.

(** [INSERT INTO attendance (employee_id, action, timestamp, latitude,
    longitude) VALUES (?, ?, ?, ?, ?)] followed by [commit]: the five
    parameters are bound in order, the constraints checked, the row
    added.  A failure leaves the table as it was. *)
Definition insert `{FloatText} (t : Table)
    (employee_id action timestamp latitude longitude : Py.value)
    : result Table :=
  let* e := bind_param employee_id in
  let* a := bind_param action in
  let* ts := bind_param timestamp in
  let* lat := bind_param latitude in
  let* lon := bind_param longitude in
  let* e' := text_not_null e in
  let* a' := text_not_null a in
  let* ts' := text_not_null ts in
  Ok {| rows := rows t ++
                [ {| id := next_rowid t;
                     employee_id := e';
                     action := a';
                     timestamp := ts';
                     latitude := real_column lat;
                     longitude := real_column lon |} ];
        seq := next_rowid t |}.

(** Sorting as SQLite does it for these queries: a scan in rowid order
    fed to a stable sorter, so rows with equal keys stay in rowid order. *)
Fixpoint insert_sorted (le : Row → Row → bool) (r : Row) (sorted : list Row)
    : list Row :=
  match sorted with
  | [] => [r]
  | x :: rest =>
      if le r x then r :: sorted else x :: insert_sorted le r rest
  end.

Definition sort (le : Row → Row → bool) (rs : list Row) : list Row :=
  fold_right (insert_sorted le) [] rs.

(** TEXT values compare bytewise (the BINARY collation). *)
Definition timestamp_le (r1 r2 : Row) : bool :=
  String.leb (timestamp r1) (timestamp r2).

Definition timestamp_ge (r1 r2 : Row) : bool :=
  String.leb (timestamp r2) (timestamp r1).

(** [SELECT ... FROM attendance ORDER BY timestamp] *)
Definition order_by_timestamp (t : Table) : list Row :=
  sort timestamp_le (rows t).

(** [SELECT ... FROM attendance ORDER BY timestamp DESC] *)
Definition order_by_timestamp_desc (t : Table) : list Row :=
  sort timestamp_ge (rows t).

(** [str(v)] of the Python object the [sqlite3] module returns for [v]. *)
Definition py_str `{FloatText} (v : sqlval) : string :=
  match v with
  | Null => "None"
  | Integer z => Str.of_Z z
  | Real f => py_str_of_float f
  | Text s => s
  end.

End Sqlite.

(* ===================================================================== *)
(** ** HTTP responses *)

Module Http.

(** What a response carries.  A JSON payload is kept as the Python object
    handed to [json.dumps] or [jsonify]; a rendered template as its name
    and the records handed to it. *)
Inductive body :=
| NoBody
| Text (s : string)
| Json (payload : Py.value)
| ErrorPage (message : string)
| Template (name : string) (records : list Sqlite.Row).

Record Response := {
  status : nat;
  headers : list (string * string);
  content : body
}.

(** How the call of a handler ends: a response was sent, an exception
    escaped, or the request went on to the static file server. *)
Inductive outcome :=
| Sent (r : Response)
| Failed (e : exn)
| Static (path : string).

(** What the client gets back for its request: a response with a status,
    nothing at all, or the answer of the static file server. *)
Inductive reply :=
| Status (code : nat)
| NoReply
| FromFile.

(** [{'success': ok, 'message': message}] *)
Definition payload (ok : bool) (message : string) : Py.value :=
  Py.Dict (<["success" := Py.Bool ok]> (<["message" := Py.Str message]> ∅)).

(** A 302 to [location] with nothing else. *)
Definition redirect (location : string) : Response :=
  {| status := 302; headers := [("Location", location)]; content := NoBody |}.

(** [send_error(code, message)] *)
Definition send_error (code : nat) (message : string) : Response :=
  {| status := code; headers := []; content := ErrorPage message |}.

Definition status_of (o : outcome) : option nat :=
  match o with
  | Sent r => Some (status r)
  | _ => None
  end.

(** The [success] flag of a JSON payload, when the response has one. *)
Definition success_of (o : outcome) : option bool :=
  match o with
  | Sent {| content := Json (Py.Dict d) |} =>
      match d !! "success" with
      | Some (Py.Bool b) => Some b
      | _ => None
      end
  | _ => None
  end.

End Http.

(* ===================================================================== *)
(** ** The login condition *)

(** The condition under which a login is accepted, kept as the list of the
    tests the source joins with [and], over the data they are applied to:
    the two implementations differ in the test applied to the password. *)
Module Cred.

Inductive datum :=
| Username            (* the submitted user name *)
| Password            (* the submitted password *)
| AdminUsername       (* the configured user name *)
| AdminPassword       (* the configured password, in clear *)
| AdminPasswordHash.  (* the hash of the configured password *)

Inductive test :=
| Equal (a b : datum)                       (* [a == b] *)
| CheckPasswordHash (pwhash pw : datum).    (* [check_password_hash(pwhash, pw)] *)

(** The hash comparison of [werkzeug.security]. *)
Class Hasher := {
  generate_password_hash : string → string;
  check_password_hash : string → string → bool
}.

Definition eq_opt (a b : option string) : bool :=
  match a, b with
  | Some x, Some y => String.eqb x y
  | None, None => true
  | _, _ => false
  end.

(** One test, on the data [v] ([None] stands for Python's [None]): the
    library call needs two [str] and raises otherwise. *)
Definition holds `{Hasher} (v : datum → option string) (t : test) : result bool :=
  match t with
  | Equal a b => Ok (eq_opt (v a) (v b))
  | CheckPasswordHash h p =>
      match v h, v p with
      | Some pwhash, Some pw => Ok (check_password_hash pwhash pw)
      | _, _ => Raise AttributeError
      end
  end.

(** [t1 and t2 and ...]: the first test that fails ends the evaluation. *)
Fixpoint all_hold `{Hasher} (v : datum → option string) (ts : list test)
    : result bool :=
  match ts with
  | [] => Ok true
  | t :: rest =>
      let* b := holds v t in
      if b then all_hold v rest else Ok false
  end.

(** A test that compares the password as a raw string. *)
Definition raw_password_test (t : test) : bool :=
  match t with
  | Equal Password _ | Equal _ Password => true
  | Equal AdminPassword _ | Equal _ AdminPassword => true
  | _ => false
  end.

End Cred.


(* ===================================================================== *)
(** ** server.py *)

Module Server.
Import Http.

(** What a handler reads from outside while it serves one request:
    [os.environ], the files of [TEMPLATES_DIR], the clock
    ([datetime.utcnow()], as [isoformat()] and as
    [strftime('%Y%m%d%H%M%S')]) and the identifier [uuid.uuid4()] draws. *)
Record World := {
  environ : gmap string string;
  templates : gmap string string;
  utcnow_isoformat : string;
  utcnow_compact : string;
  uuid4 : string
}.

(** The body of a request, by what the decoders applied to it return:
    [json.loads(body.decode('utf-8'))], [None] when it raises, and
    [parse_qs(body.decode('utf-8'))]. *)
Record Body := {
  json_loads : option Py.value;
  parse_qs : result (gmap string (list string))
}.

(** A request: [urlparse(self.path).path], the [Cookie] header, and the
    body as [rfile.read(int(headers.get('Content-Length', 0)))] returns it. *)
Record Request := {
  path : string;
  cookie : option string;
  read_body : result Body
}.

(** The state that outlives a request: the database file and the module's
    [sessions] dict. *)
Record State := {
  db : Sqlite.Table;
  sessions : gmap string bool
}.

Definition html_headers : list (string * string) :=
  [("Content-Type", "text/html; charset=utf-8")].

Definition json_headers : list (string * string) :=
  [("Content-Type", "application/json")].

(** [serve_template] *)
Definition serve_template (w : World) (template_name : string) : outcome :=
  match templates w !! template_name with
  | None => Sent (send_error 404 "Template not found")
  | Some content =>
      Sent {| status := 200; headers := html_headers; content := Text content |}
  end.

(** The loop of [get_session_id] over the pieces of the header. *)
Fixpoint first_session_id (cookies : list string) : option string :=
  match cookies with
  | [] => None
  | cookie :: rest =>
      let cookie := Str.strip cookie in
      if String.prefix "session_id=" cookie
      then Str.after "=" cookie
      else first_session_id rest
  end.

(** [get_session_id] *)
Definition get_session_id (r : Request) : option string :=
  match cookie r with
  | Some cookie_header =>
      if String.eqb cookie_header "" then None
      else first_session_id (Str.split ";" cookie_header)
  | None => None
  end.

(** [is_authenticated]: [bool(session_id and sessions.get(session_id))] *)
Definition is_authenticated (st : State) (r : Request) : bool :=
  match get_session_id r with
  | Some session_id =>
      negb (String.eqb session_id "") && default false (sessions st !! session_id)
  | None => false
  end.

Section Rendering.
Context `{FloatText}.

(** One [<tr>] of the dashboard. *)
Definition table_row (rec : Sqlite.Row) : string :=
  let display (v : Sqlite.sqlval) :=
    match v with
    | Sqlite.Null => "-"
    | _ => Sqlite.py_str v
    end in
  "<tr>"
  +:+ "<td>" +:+ Str.of_Z (Sqlite.id rec) +:+ "</td>"
  +:+ "<td>" +:+ Sqlite.employee_id rec +:+ "</td>"
  +:+ "<td>" +:+ Sqlite.action rec +:+ "</td>"
  +:+ "<td>" +:+ Sqlite.timestamp rec +:+ "</td>"
  +:+ "<td>" +:+ display (Sqlite.latitude rec) +:+ "</td>"
  +:+ "<td>" +:+ display (Sqlite.longitude rec) +:+ "</td>"
  +:+ "</tr>".

(** [serve_admin] *)
Definition serve_admin (w : World) (st : State) (r : Request) : outcome :=
  if negb (is_authenticated st r) then Sent (redirect "/admin/login")
  else
    let records := Sqlite.order_by_timestamp_desc (db st) in
    let rows_html := Str.join "" (map table_row records) in
    match templates w !! "admin.html" with
    | None => Failed FileNotFoundError
    | Some content =>
        Sent {| status := 200;
                headers := html_headers;
                content :=
                  Text (Str.replace
                          "<!-- Records will be injected by the server -->"
                          rows_html content) |}
    end.

Definition csv_header : string :=
  "Employee ID,Action,Timestamp (UTC),Latitude,Longitude".

(** One line of the export: [f'{emp_id},{action},{ts},{lat_val},{lon_val}'] *)
Definition csv_line (rec : Sqlite.Row) : string :=
  let val (v : Sqlite.sqlval) :=
    match v with
    | Sqlite.Null => ""
    | _ => Sqlite.py_str v
    end in
  Sqlite.employee_id rec +:+ "," +:+ Sqlite.action rec +:+ ","
  +:+ Sqlite.timestamp rec +:+ "," +:+ val (Sqlite.latitude rec) +:+ ","
  +:+ val (Sqlite.longitude rec).

(** The text of the export. *)
Definition csv_data (t : Sqlite.Table) : string :=
  Str.join (String (ascii_of_nat 10) "")
           (csv_header :: map csv_line (Sqlite.order_by_timestamp t)).

(** [handle_export] *)
Definition handle_export (w : World) (st : State) (r : Request) : outcome :=
  if negb (is_authenticated st r) then Sent (redirect "/admin/login")
  else
    let filename := "attendance_" +:+ utcnow_compact w +:+ ".csv" in
    let quote := String (ascii_of_nat 34) "" in
    Sent {| status := 200;
            headers :=
              [("Content-Type", "text/csv");
               ("Content-Disposition",
                "attachment; filename=" +:+ quote +:+ filename +:+ quote)];
            content := Text (csv_data (db st)) |}.

(** [handle_punch] *)
Definition handle_punch (w : World) (st : State) (r : Request)
    : outcome * State :=
  match read_body r with
  | Raise e => (Failed e, st)
  | Ok body =>
      match json_loads body with
      | None =>
          (Sent {| status := 400; headers := json_headers;
                   content := Json (payload false "Invalid JSON.") |}, st)
      | Some data =>
          let fields :=
            let* employee_id := Py.get data "employee_id" in
            let* action := Py.get data "action" in
            let* latitude := Py.get data "latitude" in
            let* longitude := Py.get data "longitude" in
            Ok (employee_id, action, latitude, longitude) in
          match fields with
          | Raise e => (Failed e, st)
          | Ok (employee_id, action, latitude, longitude) =>
              if negb (Py.truthy employee_id)
                 || negb (Py.in_strs action ["in"; "out"])
              then
                (Sent {| status := 400; headers := json_headers;
                         content := Json (payload false "Invalid payload.") |},
                 st)
              else
                let timestamp := Py.Str (utcnow_isoformat w) in
                match Sqlite.insert (db st) employee_id action timestamp
                                    latitude longitude with
                | Raise e => (Failed e, st)
                | Ok db' =>
                    (Sent {| status := 200; headers := json_headers;
                             content :=
                               Json (payload true
                                             "Punch recorded successfully.") |},
                     {| db := db'; sessions := sessions st |})
                end
          end
      end
  end.

End Rendering.

(** [params.get(key, [''])[0]] *)
Definition first_value (params : gmap string (list string)) (key : string)
    : result string :=
  match default [""] (params !! key) with
  | v :: _ => Ok v
  | [] => Raise IndexError
  end.

(** [username == admin_username and password == admin_password] *)
Definition login_condition : list Cred.test :=
  [Cred.Equal Cred.Username Cred.AdminUsername;
   Cred.Equal Cred.Password Cred.AdminPassword].

(** [os.environ.get('ADMIN_USERNAME', 'admin')] *)
Definition admin_username (w : World) : string :=
  default "admin" (environ w !! "ADMIN_USERNAME").

(** [os.environ.get('ADMIN_PASSWORD', 'admin123')] *)
Definition admin_password (w : World) : string :=
  default "admin123" (environ w !! "ADMIN_PASSWORD").

(** The data of a login: what was submitted and what the environment
    configures. *)
Definition login_data (w : World) (username password : string)
    (d : Cred.datum) : option string :=
  match d with
  | Cred.Username => Some username
  | Cred.Password => Some password
  | Cred.AdminUsername => Some (admin_username w)
  | Cred.AdminPassword => Some (admin_password w)
  | Cred.AdminPasswordHash => None
  end.

(** [handle_login] *)
Definition handle_login `{Cred.Hasher} (w : World) (st : State) (r : Request)
    : outcome * State :=
  let form :=
    let* body := read_body r in
    let* params := parse_qs body in
    let* username := first_value params "username" in
    let* password := first_value params "password" in
    let* accepted :=
      Cred.all_hold (login_data w username password) login_condition in
    Ok accepted in
  match form with
  | Raise e => (Failed e, st)
  | Ok true =>
      let session_id := uuid4 w in
      (Sent {| status := 302;
               headers :=
                 [("Location", "/admin");
                  ("Set-Cookie",
                   "session_id=" +:+ session_id +:+ "; HttpOnly; Path=/")];
               content := NoBody |},
       {| db := db st; sessions := <[session_id := true]> (sessions st) |})
  | Ok false => (Sent (redirect "/admin/login?error=1"), st)
  end.

(** [handle_logout] *)
Definition handle_logout (st : State) (r : Request) : outcome * State :=
  let sessions' :=
    match get_session_id r with
    | Some session_id =>
        if negb (String.eqb session_id "")
           && bool_decide (is_Some (sessions st !! session_id))
        then delete session_id (sessions st)
        else sessions st
    | None => sessions st
    end in
  (Sent {| status := 302;
           headers :=
             [("Set-Cookie",
               "session_id=deleted; expires=Thu, 01 Jan 1970 00:00:00 GMT; Path=/");
              ("Location", "/admin/login")];
           content := NoBody |},
   {| db := db st; sessions := sessions' |}).

(** What the client of server.py gets back: the response the handler
    sent; when an exception escapes the handler, [socketserver] logs it and
    closes the connection, and the client gets no response. *)
Definition reply_of (o : outcome) : reply :=
  match o with
  | Sent r => Status (status r)
  | Failed _ => NoReply
  | Static _ => FromFile
  end.

(** [serve_static]: the file path is [BASE_DIR] joined with the
    normalised path, and [commonprefix], which compares character by
    character, gives [STATIC_DIR] exactly when that normalised path starts
    with [static]; the file is then left to [SimpleHTTPRequestHandler]. *)
Definition serve_static (path : string) : outcome :=
  let local_path := Str.normpath (Str.lstrip_char "/" path) in
  if String.prefix "static" local_path then Static path
  else Sent (send_error 403 "Forbidden").

Section Dispatch.
Context `{FloatText} `{Cred.Hasher}.

(** [do_GET] *)
Definition do_GET (w : World) (st : State) (r : Request) : outcome * State :=
  if String.prefix "/static/" (path r) then (serve_static (path r), st)
  else if String.eqb (path r) "/" || String.eqb (path r) "/index.html"
  then (serve_template w "index.html", st)
  else if String.eqb (path r) "/admin/login"
  then (serve_template w "admin_login.html", st)
  else if String.eqb (path r) "/admin" then (serve_admin w st r, st)
  else if String.eqb (path r) "/admin/logout" then handle_logout st r
  else if String.eqb (path r) "/admin/export" then (handle_export w st r, st)
  else (Sent (send_error 404 "Not Found"), st).

(** [do_POST] *)
Definition do_POST (w : World) (st : State) (r : Request) : outcome * State :=
  if String.eqb (path r) "/punch" then handle_punch w st r
  else if String.eqb (path r) "/admin/login" then handle_login w st r
  else (Sent (send_error 404 "Not Found"), st).

(** The two methods the handler class defines. *)
Inductive method := GET | POST.

Definition handle (m : method) (w : World) (st : State) (r : Request)
    : outcome * State :=
  match m with
  | GET => do_GET w st r
  | POST => do_POST w st r
  end.

(** A run of the server: the requests are served one after the other
    ([HTTPServer] is not threaded), each in the world of its moment. *)
Fixpoint run (st : State) (reqs : list (method * World * Request)) : State :=
  match reqs with
  | [] => st
  | (m, w, r) :: rest => run (snd (handle m w st r)) rest
  end.

End Dispatch.

End Server.


(* ===================================================================== *)
(** ** app.py *)

Module App.
Import Http.

(** What a view reads from outside while it serves one request: the files
    of Flask's template folder and the clock. *)
Record World := {
  templates : gmap string string;
  utcnow_isoformat : string;
  utcnow_compact : string
}.

(** What [request.get_json()] gives the view: the decoded body, [None], or
    no return at all when Flask aborts the request with an error status
    (the choice between the three is Flask's, not the view's). *)
Inductive get_json_result :=
| Decoded (data : Py.value)
| Nothing
| Aborted (code : nat).

(** A request, by what the views read of it: [request.method],
    [request.get_json()] and [request.form.get]. *)
Record Request := {
  is_post : bool;
  get_json : get_json_result;
  form : gmap string string
}.

(** The state a view works on: the database file, and Flask's [session],
    which is loaded from the signed cookie of the client and saved back to
    it with the response. *)
Record State := {
  db : Sqlite.Table;
  session : gmap string Py.value
}.

(** The module-level constants, computed once at import. *)
Record Config := {
  ADMIN_USERNAME : string;
  ADMIN_PASSWORD_HASH : string
}.

Definition configure `{Cred.Hasher} (environ : gmap string string) : Config :=
  {| ADMIN_USERNAME := default "admin" (environ !! "ADMIN_USERNAME");
     ADMIN_PASSWORD_HASH :=
       Cred.generate_password_hash
         (default "admin123" (environ !! "ADMIN_PASSWORD")) |}.

(** [render_template(name, records=records)].  The templates are not
    among the sources: a template is a name here, and rendering is taken
    to write nothing to the session but, possibly, to take the flashed
    messages out of it, which the key [_flashes] holds and no view reads. *)
Definition render_template (w : World) (name : string)
    (records : list Sqlite.Row) : outcome :=
  match templates w !! name with
  | None => Failed TemplateNotFound
  | Some _ =>
      Sent {| status := 200;
              headers := [("Content-Type", "text/html; charset=utf-8")];
              content := Template name records |}
  end.

(** [jsonify(payload), code] *)
Definition jsonify (code : nat) (p : Py.value) : outcome :=
  Sent {| status := code;
          headers := [("Content-Type", "application/json")];
          content := Json p |}.

(** [url_for], over the routes the decorators declare. *)
Definition url_for (endpoint : string) : string :=
  if String.eqb endpoint "index" then "/"
  else if String.eqb endpoint "punch" then "/punch"
  else if String.eqb endpoint "admin_login" then "/admin/login"
  else if String.eqb endpoint "admin_dashboard" then "/admin"
  else if String.eqb endpoint "admin_logout" then "/admin/logout"
  else "/admin/export".

(** [session.get('admin_logged_in')], as a condition. *)
Definition logged_in (st : State) : bool :=
  Py.truthy (default Py.None_ (session st !! "admin_logged_in")).

(** [flash(message, category)]: one more pair in [session['_flashes']]. *)
Definition flash (message category : string) (s : gmap string Py.value)
    : gmap string Py.value :=
  let flashes :=
    match s !! "_flashes" with
    | Some (Py.List l) => l
    | _ => []
    end in
  <["_flashes" :=
      Py.List (flashes ++ [Py.List [Py.Str category; Py.Str message]])]> s.

(** [index] *)
Definition index (w : World) (st : State) : outcome * State :=
  (render_template w "index.html" [], st).

Section Views.
Context `{FloatText} `{Cred.Hasher}.

(** [punch] *)
Definition punch (w : World) (st : State) (r : Request) : outcome * State :=
  match get_json r with
  | Aborted code => (Sent (send_error code ""), st)
  | gj =>
      let data :=
        match gj with
        | Decoded v => v
        | _ => Py.None_
        end in
      let fields :=
        let* employee_id := Py.get data "employee_id" in
        let* action := Py.get data "action" in
        let* latitude := Py.get data "latitude" in
        let* longitude := Py.get data "longitude" in
        Ok (employee_id, action, latitude, longitude) in
      match fields with
      | Raise e => (Failed e, st)
      | Ok (employee_id, action, latitude, longitude) =>
          if negb (Py.truthy employee_id) || negb (Py.truthy action)
          then
            (jsonify 400
               (payload false "Employee ID and action are required."), st)
          else if negb (Py.in_strs action ["in"; "out"])
          then (jsonify 400 (payload false "Invalid action specified."), st)
          else
            let timestamp := Py.Str (utcnow_isoformat w) in
            match Sqlite.insert (db st) employee_id action timestamp
                                latitude longitude with
            | Raise e => (Failed e, st)
            | Ok db' =>
                (jsonify 200 (payload true "Punch recorded successfully."),
                 {| db := db'; session := session st |})
            end
      end
  end.

(** [username == ADMIN_USERNAME and
     check_password_hash(ADMIN_PASSWORD_HASH, password)] *)
Definition login_condition : list Cred.test :=
  [Cred.Equal Cred.Username Cred.AdminUsername;
   Cred.CheckPasswordHash Cred.AdminPasswordHash Cred.Password].

(** The data of a login: the two form fields ([None] when absent) and the
    module constants; the configured password itself is not kept. *)
Definition login_data (c : Config) (r : Request) (d : Cred.datum)
    : option string :=
  match d with
  | Cred.Username => form r !! "username"
  | Cred.Password => form r !! "password"
  | Cred.AdminUsername => Some (ADMIN_USERNAME c)
  | Cred.AdminPassword => None
  | Cred.AdminPasswordHash => Some (ADMIN_PASSWORD_HASH c)
  end.

(** [admin_login] *)
Definition admin_login (c : Config) (w : World) (st : State) (r : Request)
    : outcome * State :=
  if is_post r then
    match Cred.all_hold (login_data c r) login_condition with
    | Raise e => (Failed e, st)
    | Ok true =>
        (Sent (redirect (url_for "admin_dashboard")),
         {| db := db st;
            session := <["admin_logged_in" := Py.Bool true]> (session st) |})
    | Ok false =>
        (Sent (redirect (url_for "admin_login")),
         {| db := db st;
            session := flash "Invalid credentials" "error" (session st) |})
    end
  else (render_template w "admin_login.html" [], st).

(** [admin_dashboard] *)
Definition admin_dashboard (w : World) (st : State) : outcome * State :=
  if negb (logged_in st) then (Sent (redirect (url_for "admin_login")), st)
  else
    (render_template w "admin.html" (Sqlite.order_by_timestamp_desc (db st)),
     st).

(** [admin_logout] *)
Definition admin_logout (st : State) : outcome * State :=
  (Sent (redirect (url_for "admin_login")),
   {| db := db st; session := delete "admin_logged_in" (session st) |}).

Definition quote : string := String (ascii_of_nat 34) "".

(** [csv.writer]: the text of a field, [None] being written as nothing. *)
Definition csv_field (v : Sqlite.sqlval) : string :=
  match v with
  | Sqlite.Null => ""
  | _ => Sqlite.py_str v
  end.

(** [csv.writer], minimal quoting: a field holding the delimiter, the
    quote, a carriage return or a line feed is quoted. *)
Definition needs_quotes (field : string) : bool :=
  Str.mem "," field || Str.mem (ascii_of_nat 34) field
  || Str.mem (ascii_of_nat 13) field || Str.mem (ascii_of_nat 10) field.

(** Every quote of a quoted field is written twice. *)
Fixpoint double_quotes (field : string) : string :=
  match field with
  | EmptyString => ""
  | String c rest =>
      if Ascii.eqb c (ascii_of_nat 34)
      then String c (String c (double_quotes rest))
      else String c (double_quotes rest)
  end.

Definition quoted (field : string) : string :=
  if needs_quotes field then quote +:+ double_quotes field +:+ quote
  else field.

(** [csv_writer.writerow(fields)]: the line, ended by CR LF; a lone empty
    field is written as two quotes. *)
Definition writerow (fields : list string) : string :=
  let line :=
    match fields with
    | [EmptyString] => quote +:+ quote
    | _ => Str.join "," (map quoted fields)
    end in
  line +:+ String (ascii_of_nat 13) (String (ascii_of_nat 10) "").

Definition csv_header : list string :=
  ["Employee ID"; "Action"; "Timestamp (UTC)"; "Latitude"; "Longitude"].

(** The fields of one row of the export query. *)
Definition csv_fields (rec : Sqlite.Row) : list string :=
  [Sqlite.employee_id rec; Sqlite.action rec; Sqlite.timestamp rec;
   csv_field (Sqlite.latitude rec); csv_field (Sqlite.longitude rec)].

(** [output.getvalue()] *)
Definition csv_data (t : Sqlite.Table) : string :=
  Str.join ""
    (writerow csv_header
     :: map (fun rec => writerow (csv_fields rec)) (Sqlite.order_by_timestamp t)).

(** [export_csv] *)
Definition export_csv (w : World) (st : State) : outcome * State :=
  if negb (logged_in st) then (Sent (redirect (url_for "admin_login")), st)
  else
    (Sent {| status := 200;
             headers :=
               [("Content-Type", "text/csv; charset=utf-8");
                ("Content-Disposition",
                 "attachment; filename=attendance_" +:+ utcnow_compact w
                 +:+ ".csv")];
             content := Text (csv_data (db st)) |},
     st).

(** What the client of app.py gets back: the response of the view; when
    an exception escapes the view, Flask answers 500 Internal Server
    Error. *)
Definition reply_of (o : outcome) : reply :=
  match o with
  | Sent r => Status (status r)
  | Failed _ => Status 500
  | Static _ => FromFile
  end.

(** The views, as the routes name them. *)
Inductive endpoint :=
| Index
| Punch
| AdminLogin
| AdminDashboard
| AdminLogout
| ExportCsv.

(** The view Flask calls for a request routed to [e]. *)
Definition view (c : Config) (e : endpoint) (w : World) (st : State)
    (r : Request) : outcome * State :=
  match e with
  | Index => index w st
  | Punch => punch w st r
  | AdminLogin => admin_login c w st r
  | AdminDashboard => admin_dashboard w st
  | AdminLogout => admin_logout st
  | ExportCsv => export_csv w st
  end.

(** The URL map the [@app.route] decorators build, with the static route
    Flask adds: the view of a path under a method, or the error Flask
    answers with itself.  The path is the one werkzeug matches, and is
    taken to start with a slash and to hold no two slashes in a row (such
    a path is redirected to the merged one, not routed). *)
Inductive routed :=
| View (e : endpoint)
| StaticFile
| NotFound
| MethodNotAllowed.

(** The rule [/static/<path:filename>]: the [path] converter takes a
    file name of one character at least that does not start with a slash. *)
Definition static_rule (path : string) : bool :=
  String.prefix "/static/" path
  && match Str.drop 8 path with
     | EmptyString => false
     | String c _ => negb (Ascii.eqb c "/")
     end.

Definition route (post : bool) (path : string) : routed :=
  let get_only (e : endpoint) := if post then MethodNotAllowed else View e in
  if String.eqb path "/" then get_only Index
  else if String.eqb path "/punch"
  then if post then View Punch else MethodNotAllowed
  else if String.eqb path "/admin/login" then View AdminLogin
  else if String.eqb path "/admin" then get_only AdminDashboard
  else if String.eqb path "/admin/logout" then get_only AdminLogout
  else if String.eqb path "/admin/export" then get_only ExportCsv
  else if static_rule path
  then if post then MethodNotAllowed else StaticFile
  else NotFound.

(** A GET or a POST of [path], as Flask dispatches it. *)
Definition dispatch (c : Config) (path : string) (w : World) (st : State)
    (r : Request) : outcome * State :=
  match route (is_post r) path with
  | View e => view c e w st r
  | StaticFile => (Static path, st)
  | NotFound => (Sent (send_error 404 ""), st)
  | MethodNotAllowed => (Sent (send_error 405 ""), st)
  end.

(** A run of the application: each request comes with the session cookie
    of its client; only the database is shared. *)
Fixpoint run (c : Config) (t : Sqlite.Table)
    (reqs : list (endpoint * World * gmap string Py.value * Request))
    : Sqlite.Table :=
  match reqs with
  | [] => t
  | (e, w, cookie, r) :: rest =>
      run c (db (snd (view c e w {| db := t; session := cookie |} r))) rest
  end.

End Views.

(** What [request.get_json()] returns, by the release of Flask: a body
    whose media type is JSON is decoded, and the request aborted with 400
    when that fails; any other body is not looked at, and gives [None]
    (before 2.1), 400 (2.1 and 2.2) or 415 (from 2.3 on). *)
Inductive flask := Before_2_1 | From_2_1 | From_2_3.

Definition request_get_json (release : flask) (is_json : bool)
    (decoded : option Py.value) : get_json_result :=
  if is_json then
    match decoded with
    | Some data => Decoded data
    | None => Aborted 400
    end
  else
    match release with
    | Before_2_1 => Nothing
    | From_2_1 => Aborted 400
    | From_2_3 => Aborted 415
    end.

End App.


(* ===================================================================== *)
(** ** Reading a CSV text back *)

(** A reader for the dialect [csv.writer] writes: fields separated by
    commas, records ended by CR LF, a field in quotes when it starts with
    one, a quote inside such a field written twice.  It is what parsing an
    export back means below; it is not part of the program. *)
Module Csv.

Inductive mode :=
| StartRecord
| StartField
| Unquoted
| Quoted
| AfterQuote
| AfterReturn.

(** One more character at the front of the field being read. *)
Definition push (c : ascii) (records : list (list string))
    : list (list string) :=
  match records with
  | (f :: fields) :: rest => (String c f :: fields) :: rest
  | [] :: rest => [String c ""] :: rest
  | [] => [[String c ""]]
  end.

(** One more field at the front of the record being read. *)
Definition new_field (records : list (list string)) : list (list string) :=
  match records with
  | fields :: rest => ("" :: fields) :: rest
  | [] => [[""; ""]]
  end.

Fixpoint read (m : mode) (s : string) : list (list string) :=
  match s with
  | EmptyString =>
      match m with
      | StartRecord => []
      | _ => [[""]]
      end
  | String c s' =>
      let quote := Ascii.eqb c (ascii_of_nat 34) in
      let comma := Ascii.eqb c "," in
      let cr := Ascii.eqb c (ascii_of_nat 13) in
      let lf := Ascii.eqb c (ascii_of_nat 10) in
      let plain :=
        if comma then new_field (read StartField s')
        else if cr then read AfterReturn s'
        else push c (read Unquoted s') in
      match m with
      | StartRecord | StartField => if quote then read Quoted s' else plain
      | Unquoted => plain
      | Quoted => if quote then read AfterQuote s' else push c (read Quoted s')
      | AfterQuote => if quote then push c (read Quoted s') else plain
      | AfterReturn =>
          if lf then [""] :: read StartRecord s'
          else push c (read Unquoted s')
      end
  end.

(** The records of a text. *)
Definition reader (text : string) : list (list string) :=
  read StartRecord text.

(** A string in front of the field being read. *)
Fixpoint pushes (f : string) (records : list (list string))
    : list (list string) :=
  match f with
  | EmptyString => records
  | String c f' => push c (pushes f' records)
  end.

(** The text that follows a field: a comma or a carriage return first. *)
Definition after_field (s : string) : Prop :=
  ∃ d s', s = String d s' ∧ (d = ","%char ∨ d = ascii_of_nat 13).

Definition crlf : string :=
  String (ascii_of_nat 13) (String (ascii_of_nat 10) "").

End Csv.

(* ===================================================================== *)
(** ** The vocabulary of the properties *)

Module Spec.
Import Http.

(** [data.get(key)] on a decoded JSON object. *)
Definition field (d : gmap string Py.value) (key : string) : Py.value :=
  default Py.None_ (d !! key).


Section Stored.
Context `{FloatText}.

(** What a column [TEXT NOT NULL], and a column [REAL], keep of a Python
    value, when the value can be stored at all. *)
Definition stored_text (v : Py.value) : result string :=
  let* b := Sqlite.bind_param v in
  Sqlite.text_not_null b.

Definition stored_real (v : Py.value) : result Sqlite.sqlval :=
  let* b := Sqlite.bind_param v in
  Ok (Sqlite.real_column b).




End Stored.


(** The table [t'] is [t] with rows added at its end. *)
Definition grows (t t' : Sqlite.Table) : Prop :=
  ∃ new, Sqlite.rows t' = Sqlite.rows t ++ new.


(** HTTP 200 with a payload [{success: true, message}]. *)
Definition accepted (o : outcome) : Prop :=
  ∃ hs message,
    o = Sent {| status := 200; headers := hs;
                content := Json (payload true message) |}.

(** The rows of a table are in the order of their ids, as a scan in rowid
    order gives them. *)
Definition rowid_order (t : Sqlite.Table) : Prop :=
  StronglySorted (fun a b => Sqlite.id a < Sqlite.id b) (Sqlite.rows t).

(** [a] comes before [b] in an export: an earlier timestamp, or the same
    timestamp and a smaller id. *)
Definition before (a b : Sqlite.Row) : Prop :=
  String.ltb (Sqlite.timestamp a) (Sqlite.timestamp b) = true
  ∨ (Sqlite.timestamp a = Sqlite.timestamp b ∧ Sqlite.id a < Sqlite.id b).

(** The request carries no registered session token. *)
Definition unregistered (st : Server.State) (r : Server.Request) : Prop :=
  match Server.get_session_id r with
  | Some session_id => Server.sessions st !! session_id = None
  | None => True
  end.

End Spec.

(* ===================================================================== *)
(** ** Sample instances and requests, to run the definitions *)

Module Sample.

(** The digits of [num / den] after the point, for [0 <= num < den]. *)
Fixpoint frac_digits (fuel : nat) (num den : Z) : string :=
  match fuel with
  | O => ""
  | S k =>
      if Z.eqb num 0 then ""
      else String (ascii_of_nat (48 + Z.to_nat (num * 10 / den)))
                  (frac_digits k (num * 10 mod den) den)
  end.

(** The exact decimal expansion of [m * 2 ^ e]. *)
Definition decimal (m : positive) (e : Z) : string :=
  if Z.leb 0 e then Str.of_Z (Z.pos m * 2 ^ e) +:+ ".0"
  else
    let den := 2 ^ (- e) in
    Str.of_Z (Z.pos m / den) +:+ "." +:+
    (if Z.eqb (Z.pos m mod den) 0 then "0"
     else frac_digits (Z.to_nat (- e)) (Z.pos m mod den) den).

Definition float_text (minus_zero inf : string) (f : spec_float) : string :=
  match f with
  | S754_zero s => if s then minus_zero else "0.0"
  | S754_infinity s => if s then "-" +:+ inf else inf
  | S754_nan => "nan"
  | S754_finite s m e => (if s then "-" else "") +:+ decimal m e
  end.

Fixpoint digits_value (acc : Z) (s : string) : option Z :=
  match s with
  | EmptyString => Some acc
  | String c rest =>
      let n := N_of_ascii c in
      if N.leb 48 n && N.leb n 57
      then digits_value (acc * 10 + Z.of_N n - 48) rest
      else None
  end.

(** An integer literal, with its sign. *)
Definition integer_literal (s : string) : option Z :=
  match s with
  | EmptyString => None
  | String "-" (String c rest) => Z.opp <$> digits_value 0 (String c rest)
  | _ => digits_value 0 s
  end.

(** A stand-in for the three conversions: numbers with a short decimal
    expansion are written in full, and only integer literals are read as
    numbers. *)
Definition float_text_sample : FloatText := {|
  sqlite_text_of_real := float_text "0.0" "Inf";
  sqlite_real_of_text := fun s => Sqlite.real_of_int <$> integer_literal s;
  py_str_of_float := float_text "-0.0" "inf"
|}.

(** A stand-in for the password hashing: the hash names its password. *)
Definition hasher_sample : Cred.Hasher := {|
  Cred.generate_password_hash := fun pw => "plain$" +:+ pw;
  Cred.check_password_hash := fun pwhash pw => String.eqb pwhash ("plain$" +:+ pw)
|}.

Definition world : Server.World := {|
  Server.environ := ∅;
  Server.templates := {[ "index.html" := "<html>punch</html>" ]};
  Server.utcnow_isoformat := "2024-05-01T09:00:00.250000";
  Server.utcnow_compact := "20240501090000";
  Server.uuid4 := "1b4e28ba-2fa1-11d2-883f-0016d3cca427"
|}.

Definition app_world : App.World := {|
  App.templates := {[ "index.html" := "<html>punch</html>" ]};
  App.utcnow_isoformat := "2024-05-01T09:00:00.250000";
  App.utcnow_compact := "20240501090000"
|}.

Definition state : Server.State :=
  {| Server.db := Sqlite.empty; Server.sessions := ∅ |}.

Definition app_state : App.State :=
  {| App.db := Sqlite.empty; App.session := ∅ |}.

(** POST /punch with a body that decodes to [data]. *)
Definition punch_request (data : gmap string Py.value) : Server.Request := {|
  Server.path := "/punch";
  Server.cookie := None;
  Server.read_body :=
    Ok {| Server.json_loads := Some (Py.Dict data); Server.parse_qs := Ok ∅ |}
|}.

Definition app_punch_request (data : gmap string Py.value) : App.Request := {|
  App.is_post := true;
  App.get_json := App.Decoded (Py.Dict data);
  App.form := ∅
|}.

(** POST /admin/login with the two form fields. *)
Definition login_request (username password : string) : Server.Request := {|
  Server.path := "/admin/login";
  Server.cookie := None;
  Server.read_body :=
    Ok {| Server.json_loads := None;
          Server.parse_qs :=
            Ok (<["username" := [username]]> (<["password" := [password]]> ∅)) |}
|}.

Definition app_login_request (username password : string) : App.Request := {|
  App.is_post := true;
  App.get_json := App.Nothing;
  App.form := <["username" := username]> (<["password" := password]> ∅)
|}.

(** A GET with a Cookie header. *)
Definition get_request (path : string) (cookie : option string)
    : Server.Request := {|
  Server.path := path;
  Server.cookie := cookie;
  Server.read_body :=
    Ok {| Server.json_loads := None; Server.parse_qs := Ok ∅ |}
|}.

(** [{"employee_id": "E1", "action": "in", "latitude": 1.5,
     "longitude": 2.5}] *)
Definition punch_in : gmap string Py.value :=
  <["employee_id" := Py.Str "E1"]>
    (<["action" := Py.Str "in"]>
       (<["latitude" := Py.Float (S754_finite false 6755399441055744 (-52))]>
          (<["longitude" := Py.Float (S754_finite false 5629499534213120 (-51))]>
             ∅))).

(** [{"employee_id": "E1", "action": "out"}] *)
Definition punch_out : gmap string Py.value :=
  <["employee_id" := Py.Str "E1"]> (<["action" := Py.Str "out"]> ∅).




(** The world at another reading of the clock. *)
Definition world_at (now : string) : Server.World := {|
  Server.environ := ∅;
  Server.templates := ∅;
  Server.utcnow_isoformat := now;
  Server.utcnow_compact := "20240501090000";
  Server.uuid4 := "1b4e28ba-2fa1-11d2-883f-0016d3cca427"
|}.

Definition row (id : Z) (employee_id action timestamp : string)
    (latitude longitude : Sqlite.sqlval) : Sqlite.Row := {|
  Sqlite.id := id;
  Sqlite.employee_id := employee_id;
  Sqlite.action := action;
  Sqlite.timestamp := timestamp;
  Sqlite.latitude := latitude;
  Sqlite.longitude := longitude
|}.

(** Three punches: the second within the same microsecond as the first,
    the third after the clock was set back. *)
Definition three_rows : Sqlite.Table := {|
  Sqlite.rows :=
    [row 1 "E1" "in" "2024-05-01T09:00:00.250000"
       (Sqlite.Real (S754_finite false 6755399441055744 (-52)))
       (Sqlite.Real (S754_finite false 5629499534213120 (-51)));
     row 2 "E2" "in" "2024-05-01T09:00:00.250000" Sqlite.Null Sqlite.Null;
     row 3 "E1" "out" "2024-05-01T08:59:59.900000" Sqlite.Null Sqlite.Null];
  Sqlite.seq := 3
|}.

Definition line_feed : string := String (ascii_of_nat 10) "".

(** An employee_id that holds commas and a line feed. *)
Definition crafted_employee : string :=
  "X,in,2024-05-01T09:00:00,," +:+ line_feed +:+ "Y".

Definition punch_crafted : gmap string Py.value :=
  <["employee_id" := Py.Str crafted_employee]> (<["action" := Py.Str "in"]> ∅).

Definition punch_by (employee_id : string) : gmap string Py.value :=
  <["employee_id" := Py.Str employee_id]> (<["action" := Py.Str "in"]> ∅).

(** The table after the one crafted punch, and after two plain ones. *)
Definition crafted_table : Sqlite.Table := {|
  Sqlite.rows :=
    [row 1 crafted_employee "in" "2024-05-01T10:00:00" Sqlite.Null Sqlite.Null];
  Sqlite.seq := 1
|}.

Definition plain_table : Sqlite.Table := {|
  Sqlite.rows :=
    [row 1 "X" "in" "2024-05-01T09:00:00" Sqlite.Null Sqlite.Null;
     row 2 "Y" "in" "2024-05-01T10:00:00" Sqlite.Null Sqlite.Null];
  Sqlite.seq := 2
|}.

(** A GET without a body, as a view of app.py reads it. *)
Definition app_get_request : App.Request := {|
  App.is_post := false;
  App.get_json := App.Nothing;
  App.form := ∅
|}.

(** POST /punch as Flask sees it: whether the media type is JSON, and what
    the body decodes to. *)
Definition flask_punch_request (release : App.flask) (is_json : bool)
    (decoded : option Py.value) : App.Request := {|
  App.is_post := true;
  App.get_json := App.request_get_json release is_json decoded;
  App.form := ∅
|}.

End Sample.


(* ===================================================================== *)
(** ** Further vocabulary: sessions, row ids, templates *)

Module More.

(** [old in s]: [old] starts at some position of [s]. *)
Fixpoint occurs (old s : string) : bool :=
  String.prefix old s
  || match s with
     | EmptyString => false
     | String _ s' => occurs old s'
     end.

(** No occurrence of [old] starts inside [pre] when [rest] follows it. *)
Fixpoint clear_before (old pre rest : string) : bool :=
  match pre with
  | EmptyString => true
  | String _ pre' =>
      negb (String.prefix old (pre +:+ rest)) && clear_before old pre' rest
  end.

(** A cookie value that travels unchanged: not empty, no semicolon, no
    space at its end (a [uuid4] is one). *)
Definition token (tok : string) : Prop :=
  tok ≠ "" ∧ Str.mem ";" tok = false ∧ Str.rstrip tok = tok.

(** A cell that server.py can write without changing the shape of its
    export: no comma and no line feed in it. *)
Definition clean (cell : string) : bool :=
  negb (Str.mem "," cell) && negb (Str.mem (ascii_of_nat 10) cell).

(** Every registered session is marked [True]. *)
Definition sessions_true (st : Server.State) : Prop :=
  ∀ session_id v, Server.sessions st !! session_id = Some v → v = true.

(** The submitted form carries the configured credentials. *)
Definition login_accepted (w : Server.World) (r : Server.Request) : Prop :=
  ∃ body params,
    Server.read_body r = Ok body
    ∧ Server.parse_qs body = Ok params
    ∧ Server.first_value params "username" = Ok (Server.admin_username w)
    ∧ Server.first_value params "password" = Ok (Server.admin_password w).

(** The request is an accepted login that draws the identifier
    [session_id]. *)
Definition issues (session_id : string)
    (req : Server.method * Server.World * Server.Request) : Prop :=
  let '(m, w, r) := req in
  m = Server.POST ∧ Server.path r = "/admin/login"
  ∧ login_accepted w r ∧ Server.uuid4 w = session_id.

(** The request is a logout whose cookie names [session_id]. *)
Definition logs_out (session_id : string)
    (req : Server.method * Server.World * Server.Request) : Prop :=
  let '(m, w, r) := req in
  m = Server.GET ∧ Server.path r = "/admin/logout"
  ∧ Server.get_session_id r = Some session_id.

(** The ids of a table are 1, 2, ... in the order of its rows, and
    [sqlite_sequence] holds the number of rows. *)
Definition dense (t : Sqlite.Table) : Prop :=
  (∀ (i : nat) row, Sqlite.rows t !! i = Some row →
                    Sqlite.id row = Z.of_nat i + 1)
  ∧ Sqlite.seq t = Z.of_nat (length (Sqlite.rows t)).

(** [a] comes before [b] on the dashboard: a later timestamp, or the same
    timestamp and a smaller id. *)
Definition after (a b : Sqlite.Row) : Prop :=
  String.ltb (Sqlite.timestamp b) (Sqlite.timestamp a) = true
  ∨ (Sqlite.timestamp a = Sqlite.timestamp b ∧ Sqlite.id a < Sqlite.id b).

Definition placeholder : string :=
  "<!-- Records will be injected by the server -->".

(** The clock a request of server.py, and of app.py, is served at. *)
Definition clock (req : Server.method * Server.World * Server.Request)
    : string :=
  let '(_, w, _) := req in Server.utcnow_isoformat w.

Definition app_clock
    (req : App.endpoint * App.World * gmap string Py.value * App.Request)
    : string :=
  let '(_, w, _, _) := req in App.utcnow_isoformat w.

(** A sequence of timestamps that never goes back, in the order SQLite
    compares them. *)
Definition never_back (stamps : list string) : Prop :=
  StronglySorted (fun a b => String.leb a b = true) stamps.

(** [request.method == 'POST'], for a request of server.py. *)
Definition is_post (m : Server.method) : bool :=
  match m with
  | Server.POST => true
  | Server.GET => false
  end.


(** The answer says that a punch was recorded: a JSON payload whose
    [success] is true. *)
Definition recorded (o : Http.outcome) : bool :=
  match Http.success_of o with
  | Some true => true
  | _ => false
  end.

Section Outcomes.
Context `{FloatText} `{Cred.Hasher}.

(** The answers of a run of server.py, and of app.py, in order. *)
Fixpoint outcomes (st : Server.State)
    (reqs : list (Server.method * Server.World * Server.Request))
    : list Http.outcome :=
  match reqs with
  | [] => []
  | (m, w, r) :: rest =>
      fst (Server.handle m w st r)
      :: outcomes (snd (Server.handle m w st r)) rest
  end.

Fixpoint app_outcomes (c : App.Config) (t : Sqlite.Table)
    (reqs : list (App.endpoint * App.World * gmap string Py.value
                  * App.Request))
    : list Http.outcome :=
  match reqs with
  | [] => []
  | (e, w, cookie, r) :: rest =>
      let served := App.view c e w {| App.db := t; App.session := cookie |} r in
      fst served :: app_outcomes c (App.db (snd served)) rest
  end.

End Outcomes.

(** A world whose template folder holds the dashboard template
    [content]. *)
Definition world_with_admin (content : string) : Server.World := {|
  Server.environ := ∅;
  Server.templates := {[ "admin.html" := content ]};
  Server.utcnow_isoformat := "2024-05-01T09:00:00.250000";
  Server.utcnow_compact := "20240501090000";
  Server.uuid4 := "1b4e28ba-2fa1-11d2-883f-0016d3cca427"
|}.

Definition app_world_with_admin : App.World := {|
  App.templates := {[ "admin.html" := "<html></html>" ]};
  App.utcnow_isoformat := "2024-05-01T09:00:00.250000";
  App.utcnow_compact := "20240501090000"
|}.

End More.

(* ===================================================================== *)
(** * Properties *)

(** ** The definitions at work *)

(** The scenario of the specification: a punch in with coordinates, then a
    punch out without, on an empty table. *)
Example two_punches :
  Sqlite.rows
    (Server.db
       (@Server.run Sample.float_text_sample Sample.hasher_sample Sample.state
          [(Server.POST, Sample.world_at "2024-05-01T09:00:00.250000",
            Sample.punch_request Sample.punch_in);
           (Server.POST, Sample.world_at "2024-05-01T17:30:00",
            Sample.punch_request Sample.punch_out)]))
  = [Sample.row 1 "E1" "in" "2024-05-01T09:00:00.250000"
       (Sqlite.Real (S754_finite false 6755399441055744 (-52)))
       (Sqlite.Real (S754_finite false 5629499534213120 (-51)));
     Sample.row 2 "E1" "out" "2024-05-01T17:30:00" Sqlite.Null Sqlite.Null].
Proof. reflexivity. Qed.

Example cookie_with_session :
  Server.get_session_id
    (Sample.get_request "/admin" (Some "theme=dark;  session_id=abc=d ; x=1"))
  = Some "abc=d".
Proof. reflexivity. Qed.

Example cookie_without_session :
  Server.get_session_id (Sample.get_request "/admin" (Some "xsession_id=abc"))
  = None.
Proof. reflexivity. Qed.

Example integer_coordinate :
  @Spec.stored_real Sample.float_text_sample (Py.Int 1)
  = Ok (Sqlite.Real (S754_finite false 4503599627370496 (-52))).
Proof. reflexivity. Qed.

Example quoted_field :
  App.writerow ["a,b"; "in"]
  = App.quote +:+ "a,b" +:+ App.quote +:+ ",in"
    +:+ String (ascii_of_nat 13) (String (ascii_of_nat 10) "").
Proof. reflexivity. Qed.

Example login_then_dashboard :
  let '(_, st) :=
    @Server.handle_login Sample.hasher_sample Sample.world Sample.state
      (Sample.login_request "admin" "admin123") in
  Server.is_authenticated st
    (Sample.get_request "/admin"
       (Some "session_id=1b4e28ba-2fa1-11d2-883f-0016d3cca427"))
  = true.
Proof. reflexivity. Qed.

(** ** The order of timestamps *)

Lemma ltb_lt (a b : string) : String.ltb a b = true ↔ String_as_OT.lt a b.
Proof.
  unfold String.ltb. rewrite <- String_as_OT.cmp_lt. unfold String_as_OT.cmp.
  destruct (String.compare a b); intuition congruence.
Qed.

Lemma ltb_trans (a b c : string) :
  String.ltb a b = true → String.ltb b c = true → String.ltb a c = true.
Proof.
  rewrite !ltb_lt. apply String_as_OT.lt_trans.
Qed.

Lemma leb_false_ltb (a b : string) :
  String.leb a b = false → String.ltb b a = true.
Proof.
  unfold String.leb, String.ltb. rewrite (String.compare_antisym a b).
  destruct (String.compare b a); simpl; congruence.
Qed.

Lemma leb_cases (a b : string) :
  String.leb a b = true → String.ltb a b = true ∨ a = b.
Proof.
  unfold String.leb, String.ltb.
  destruct (String.compare a b) eqn:E; try discriminate; intros _.
  - right. now apply String.compare_eq_iff.
  - now left.
Qed.


Lemma before_leb (a b : Sqlite.Row) :
  Spec.before a b → Sqlite.timestamp_le a b = true.
Proof.
  unfold Sqlite.timestamp_le, String.leb, String.ltb.
  intros [Hlt | [Heq _]].
  - unfold String.ltb in Hlt.
    destruct (String.compare (Sqlite.timestamp a) (Sqlite.timestamp b));
      congruence.
  - rewrite Heq.
    assert (E : String.compare (Sqlite.timestamp b) (Sqlite.timestamp b) = Eq)
      by (apply String_as_OT.cmp_eq; reflexivity).
    unfold String_as_OT.cmp in E. now rewrite E.
Qed.

Lemma timestamp_le_trans (a b c : Sqlite.Row) :
  Sqlite.timestamp_le a b = true → Sqlite.timestamp_le b c = true →
  Sqlite.timestamp_le a c = true.
Proof.
  unfold Sqlite.timestamp_le. intros Hab Hbc.
  destruct (leb_cases _ _ Hab) as [Hlt | Heq]; [| now rewrite Heq].
  destruct (leb_cases _ _ Hbc) as [Hlt' | Heq']; [| now rewrite <- Heq'].
  pose proof (ltb_trans _ _ _ Hlt Hlt') as Hac.
  unfold String.ltb in Hac. unfold String.leb.
  destruct (String.compare (Sqlite.timestamp a) (Sqlite.timestamp c));
    congruence.
Qed.

(** ** The stable sort *)

Lemma insert_sorted_perm (le : Sqlite.Row → Sqlite.Row → bool) r l :
  Permutation (Sqlite.insert_sorted le r l) (r :: l).
Proof.
  induction l as [| x l IH]; simpl.
  - reflexivity.
  - destruct (le r x).
    + reflexivity.
    + rewrite IH. apply perm_swap.
Qed.

Lemma sort_perm (le : Sqlite.Row → Sqlite.Row → bool) l :
  Permutation (Sqlite.sort le l) l.
Proof.
  induction l as [| x l IH]; simpl.
  - reflexivity.
  - unfold Sqlite.sort in *. simpl. rewrite insert_sorted_perm.
    now apply perm_skip.
Qed.



(** ** Row ids *)

Lemma max_rowid_ge rs :
  Forall (fun r => Sqlite.id r <= Sqlite.max_rowid rs) rs.
Proof.
  induction rs as [| x rs IH]; simpl; constructor.
  - lia.
  - eapply Forall_impl; [exact IH |]. simpl. intros r Hr. lia.
Qed.

Lemma next_rowid_fresh t :
  Forall (fun r => Sqlite.id r < Sqlite.next_rowid t) (Sqlite.rows t)
  ∧ Sqlite.seq t < Sqlite.next_rowid t.
Proof.
  unfold Sqlite.next_rowid. split; [| lia].
  eapply Forall_impl; [apply max_rowid_ge |]. simpl. intros r Hr. lia.
Qed.

Lemma strongly_sorted_snoc {A} (R : A → A → Prop) l y :
  StronglySorted R l → Forall (fun x => R x y) l → StronglySorted R (l ++ [y]).
Proof.
  induction l as [| x l IH]; simpl; intros Hs Hy.
  - constructor; constructor.
  - apply StronglySorted_inv in Hs as [Hs Hx].
    apply Forall_cons_iff in Hy as [Hxy Hy].
    constructor.
    + now apply IH.
    + apply Forall_app. split; [assumption | now constructor].
Qed.



(** ** The punch handlers on a decoded body *)

Lemma in_strs_in_out v :
  Py.in_strs v ["in"; "out"] = true → v = Py.Str "in" ∨ v = Py.Str "out".
Proof.
  destruct v; simpl; try discriminate.
  destruct (String.eqb_spec s "in") as [-> | _]; [now left |].
  destruct (String.eqb_spec s "out") as [-> | _]; [now right |].
  discriminate.
Qed.

Lemma in_strs_truthy v : Py.in_strs v ["in"; "out"] = true → Py.truthy v = true.
Proof.
  intros Hv. now destruct (in_strs_in_out v Hv) as [-> | ->].
Qed.

Section Punch.
Context `{FloatText}.





End Punch.

Section PunchFacts.
Context `{FloatText}.





(** What the two columns keep of the values of each type. *)
Lemma stored_text_str s : Spec.stored_text (Py.Str s) = Ok s.
Proof. reflexivity. Qed.


Lemma stored_text_true : Spec.stored_text (Py.Bool true) = Ok "1".
Proof. reflexivity. Qed.

Lemma stored_real_none : Spec.stored_real Py.None_ = Ok Sqlite.Null.
Proof. reflexivity. Qed.

Lemma stored_real_float f :
  f ≠ S754_nan →
  Spec.stored_real (Py.Float f) = Ok (Sqlite.Real (Sqlite.real_stored f)).
Proof.
  intros Hf. destruct f; try reflexivity. congruence.
Qed.

Lemma stored_real_str s :
  Spec.stored_real (Py.Str s)
  = Ok (match sqlite_real_of_text s with
        | Some f => Sqlite.Real (Sqlite.real_stored f)
        | None => Sqlite.Text s
        end).
Proof. reflexivity. Qed.

Lemma stored_list items :
  Spec.stored_text (Py.List items) = Raise ProgrammingError
  ∧ Spec.stored_real (Py.List items) = Raise ProgrammingError.
Proof. now split. Qed.

Lemma stored_dict d :
  Spec.stored_text (Py.Dict d) = Raise ProgrammingError
  ∧ Spec.stored_real (Py.Dict d) = Raise ProgrammingError.
Proof. now split. Qed.

End PunchFacts.

(* ===================================================================== *)
(** ** Claims on the punch handlers *)












(* ===================================================================== *)
(** ** The table only grows *)

Lemma insert_appends `{FloatText} t e a ts la lo t' :
  Sqlite.insert t e a ts la lo = Ok t' →
  ∃ row, Sqlite.rows t' = Sqlite.rows t ++ [row].
Proof.
  unfold Sqlite.insert.
  destruct (Sqlite.bind_param e); simpl; [| discriminate].
  destruct (Sqlite.bind_param a); simpl; [| discriminate].
  destruct (Sqlite.bind_param ts); simpl; [| discriminate].
  destruct (Sqlite.bind_param la); simpl; [| discriminate].
  destruct (Sqlite.bind_param lo); simpl; [| discriminate].
  destruct (Sqlite.text_not_null _); simpl; [| discriminate].
  destruct (Sqlite.text_not_null _); simpl; [| discriminate].
  destruct (Sqlite.text_not_null _); simpl; [| discriminate].
  intros [= <-]. simpl. eauto.
Qed.

Lemma grows_refl t : Spec.grows t t.
Proof. exists []. now rewrite app_nil_r. Qed.

Lemma grows_trans t1 t2 t3 : Spec.grows t1 t2 → Spec.grows t2 t3 → Spec.grows t1 t3.
Proof.
  intros [n1 H1] [n2 H2]. exists (n1 ++ n2). now rewrite H2, H1, app_assoc.
Qed.

Section AppendOnly.
Context `{FloatText} `{Cred.Hasher}.

Lemma server_punch_grows w st r :
  Spec.grows (Server.db st) (Server.db (snd (Server.handle_punch w st r))).
Proof.
  unfold Server.handle_punch.
  destruct (Server.read_body r) as [body |]; [| apply grows_refl].
  destruct (Server.json_loads body) as [data |]; [| apply grows_refl].
  destruct (let* employee_id := Py.get data "employee_id" in _)
    as [[[[e a] la] lo] |]; [| apply grows_refl].
  destruct (negb (Py.truthy e) || _); [apply grows_refl |].
  destruct (Sqlite.insert _ _ _ _ _ _) eqn:Hi; [| apply grows_refl].
  simpl. destruct (insert_appends _ _ _ _ _ _ _ Hi) as [row Hrow].
  now exists [row].
Qed.

Lemma server_handle_grows m w st r :
  Spec.grows (Server.db st) (Server.db (snd (Server.handle m w st r))).
Proof.
  destruct m; simpl.
  - unfold Server.do_GET.
    repeat (match goal with
            | |- context [if ?b then _ else _] => destruct b
            end; try apply grows_refl).
  - unfold Server.do_POST.
    destruct (String.eqb _ _); [apply server_punch_grows |].
    destruct (String.eqb _ _); [| apply grows_refl].
    unfold Server.handle_login.
    destruct (let* body := Server.read_body r in _) as [[|] |];
      apply grows_refl.
Qed.

Lemma server_run_grows reqs st :
  Spec.grows (Server.db st) (Server.db (Server.run st reqs)).
Proof.
  revert st. induction reqs as [| [[m w] r] reqs IH]; intros st; simpl.
  - apply grows_refl.
  - eapply grows_trans; [apply server_handle_grows | apply IH].
Qed.

Lemma app_punch_grows w st r :
  Spec.grows (App.db st) (App.db (snd (App.punch w st r))).
Proof.
  unfold App.punch.
  destruct (App.get_json r) as [data | |]; try apply grows_refl.
  destruct (let* employee_id := Py.get data "employee_id" in _)
    as [[[[e a] la] lo] |]; [| apply grows_refl].
  destruct (negb (Py.truthy e) || _); [apply grows_refl |].
  destruct (negb (Py.in_strs a _)); [apply grows_refl |].
  destruct (Sqlite.insert _ _ _ _ _ _) eqn:Hi; [| apply grows_refl].
  simpl. destruct (insert_appends _ _ _ _ _ _ _ Hi) as [row Hrow].
  now exists [row].
Qed.

Lemma app_view_grows c e w st r :
  Spec.grows (App.db st) (App.db (snd (App.view c e w st r))).
Proof.
  destruct e; simpl; try apply grows_refl.
  - apply app_punch_grows.
  - unfold App.admin_login. destruct (App.is_post r); [| apply grows_refl].
    destruct (Cred.all_hold _ _) as [[|] |]; apply grows_refl.
  - unfold App.admin_dashboard. destruct (negb _); apply grows_refl.
  - unfold App.export_csv. destruct (negb _); apply grows_refl.
Qed.

Lemma app_run_grows c reqs t : Spec.grows t (App.run c t reqs).
Proof.
  revert t. induction reqs as [| [[[e w] cookie] r] reqs IH]; intros t; simpl.
  - apply grows_refl.
  - eapply grows_trans; [| apply IH].
    apply (app_view_grows c e w {| App.db := t; App.session := cookie |} r).
Qed.

(** C9: the attendance table is append-only.  Whatever requests either
    server handles, in whatever order, the rows present before are still
    there afterwards, unchanged and in the same place: the table after is
    the table before followed by the rows added since. *)
Theorem store_append_only :
  (∀ st reqs,
     ∃ new, Sqlite.rows (Server.db (Server.run st reqs))
            = Sqlite.rows (Server.db st) ++ new)
  ∧ (∀ c t reqs,
       ∃ new, Sqlite.rows (App.run c t reqs) = Sqlite.rows t ++ new).
Proof.
  split.
  - intros st reqs. apply server_run_grows.
  - intros c t reqs. apply app_run_grows.
Qed.

End AppendOnly.

(* ===================================================================== *)
(** ** Access without a session *)

Lemma unregistered_not_authenticated st r :
  Spec.unregistered st r → Server.is_authenticated st r = false.
Proof.
  unfold Spec.unregistered, Server.is_authenticated.
  destruct (Server.get_session_id r) as [sid |]; [| reflexivity].
  intros ->. simpl. apply andb_false_r.
Qed.

(** C5: a GET of /admin or of /admin/export that carries no registered
    session token (for app.py: whose session is not marked as logged in) is
    answered, by server.py and by app.py alike, with an HTTP 302 whose
    Location is /admin/login, hence with neither a 401 nor a 403, and leaves
    the state as it was. *)
Theorem unauthenticated_redirect `{FloatText} `{Cred.Hasher} :
  (∀ w st r,
     Spec.unregistered st r →
     Server.path r = "/admin" ∨ Server.path r = "/admin/export" →
     Server.do_GET w st r
     = (Http.Sent {| Http.status := 302;
                     Http.headers := [("Location", "/admin/login")];
                     Http.content := Http.NoBody |}, st))
  ∧ (∀ c w st r e,
       App.logged_in st = false →
       e = App.AdminDashboard ∨ e = App.ExportCsv →
       App.view c e w st r
       = (Http.Sent {| Http.status := 302;
                       Http.headers := [("Location", "/admin/login")];
                       Http.content := Http.NoBody |}, st)).
Proof.
  split.
  - intros w st r Hu Hpath. apply unregistered_not_authenticated in Hu.
    unfold Server.do_GET, Server.serve_admin, Server.handle_export.
    destruct Hpath as [-> | ->]; simpl; now rewrite Hu.
  - intros c w st r e Hl He.
    destruct He as [-> | ->]; simpl;
      unfold App.admin_dashboard, App.export_csv; now rewrite Hl.
Qed.

(** The theorem on C5 at a GET of /admin/export whose cookie names a
    session that was never created. *)
Lemma unauthenticated_redirect_witness :
  @Server.do_GET Sample.float_text_sample Sample.world Sample.state
    (Sample.get_request "/admin/export" (Some "theme=dark; session_id=guess"))
  = (Http.Sent {| Http.status := 302;
                  Http.headers := [("Location", "/admin/login")];
                  Http.content := Http.NoBody |}, Sample.state).
Proof.
  apply (proj1 (@unauthenticated_redirect Sample.float_text_sample
                  Sample.hasher_sample)).
  - reflexivity.
  - now right.
Defined.

(* ===================================================================== *)
(** ** Login *)

Section Login.
Context `{Cred.Hasher}.

(** [handle_login] on a form that was read: the two string comparisons
    decide. *)
Lemma server_login_cases w st r body params username password :
  Server.read_body r = Ok body →
  Server.parse_qs body = Ok params →
  Server.first_value params "username" = Ok username →
  Server.first_value params "password" = Ok password →
  Server.handle_login w st r
  = if String.eqb username (Server.admin_username w)
       && String.eqb password (Server.admin_password w)
    then
      (Http.Sent
         {| Http.status := 302;
            Http.headers :=
              [("Location", "/admin");
               ("Set-Cookie",
                "session_id=" +:+ Server.uuid4 w +:+ "; HttpOnly; Path=/")];
            Http.content := Http.NoBody |},
       {| Server.db := Server.db st;
          Server.sessions := <[Server.uuid4 w := true]> (Server.sessions st) |})
    else (Http.Sent (Http.redirect "/admin/login?error=1"), st).
Proof.
  intros Hb Hq Hu Hp. unfold Server.handle_login.
  rewrite Hb. cbn [bind]. rewrite Hq. cbn [bind]. rewrite Hu. cbn [bind].
  rewrite Hp.
  cbn [bind Server.login_condition Cred.all_hold Cred.holds Server.login_data
       Cred.eq_opt].
  destruct (String.eqb username (Server.admin_username w)); [| reflexivity].
  destruct (String.eqb password (Server.admin_password w)); reflexivity.
Qed.


Lemma flash_keeps_login message category (s : gmap string Py.value) :
  App.flash message category s !! "admin_logged_in" = s !! "admin_logged_in".
Proof.
  unfold App.flash. now rewrite lookup_insert_ne.
Qed.


End Login.

Lemma sample_hash_exact pw :
  @Cred.check_password_hash Sample.hasher_sample
    (App.ADMIN_PASSWORD_HASH (@App.configure Sample.hasher_sample ∅)) pw = true
  ↔ pw = "admin123".
Proof.
  simpl. split.
  - intros E. apply String.eqb_eq in E. now inversion E.
  - intros ->. reflexivity.
Qed.


(** C1 is violated by server.py: its login condition tests the submitted
    password against the configured one with a raw [==], it gives the same
    result whatever the hashing functions are, because it never calls them,
    and the login request with admin and admin123 is accepted on that
    comparison alone.  The condition of app.py has no raw test on a
    password: it goes through [check_password_hash]. *)
Theorem server_login_compares_raw_password :
  In (Cred.Equal Cred.Password Cred.AdminPassword) Server.login_condition
  ∧ existsb Cred.raw_password_test Server.login_condition = true
  ∧ existsb Cred.raw_password_test App.login_condition = false
  ∧ (∀ (h1 h2 : Cred.Hasher) w st r,
       @Server.handle_login h1 w st r = @Server.handle_login h2 w st r)
  ∧ (∀ h : Cred.Hasher,
       Http.status_of
         (fst (@Server.handle_login h Sample.world Sample.state
                 (Sample.login_request "admin" "admin123")))
       = Some 302%nat
       ∧ Server.sessions
           (snd (@Server.handle_login h Sample.world Sample.state
                   (Sample.login_request "admin" "admin123")))
         !! "1b4e28ba-2fa1-11d2-883f-0016d3cca427" = Some true).
Proof.
  split; [right; now left |].
  split; [reflexivity |]. split; [reflexivity |]. split.
  - intros h1 h2 w st r. unfold Server.handle_login.
    destruct (Server.read_body r) as [body |]; [| reflexivity].
    cbn [bind].
    destruct (Server.parse_qs body) as [params |]; [| reflexivity].
    cbn [bind].
    destruct (Server.first_value params "username"); [| reflexivity].
    cbn [bind].
    destruct (Server.first_value params "password"); reflexivity.
  - intros h. split; vm_compute; reflexivity.
Qed.

(* ===================================================================== *)
(** ** The CSV export *)

Lemma empty_rowid_order : Spec.rowid_order Sqlite.empty.
Proof. constructor. Qed.

Lemma insert_rowid_order `{FloatText} t e a ts la lo t' :
  Sqlite.insert t e a ts la lo = Ok t' →
  Spec.rowid_order t → Spec.rowid_order t'.
Proof.
  unfold Sqlite.insert.
  destruct (Sqlite.bind_param e); simpl; [| discriminate].
  destruct (Sqlite.bind_param a); simpl; [| discriminate].
  destruct (Sqlite.bind_param ts); simpl; [| discriminate].
  destruct (Sqlite.bind_param la); simpl; [| discriminate].
  destruct (Sqlite.bind_param lo); simpl; [| discriminate].
  destruct (Sqlite.text_not_null _); simpl; [| discriminate].
  destruct (Sqlite.text_not_null _); simpl; [| discriminate].
  destruct (Sqlite.text_not_null _); simpl; [| discriminate].
  intros [= <-] Ht. unfold Spec.rowid_order. simpl.
  apply strongly_sorted_snoc; [assumption |]. apply next_rowid_fresh.
Qed.

Section CsvExport.
Context `{FloatText}.

(** Every table the servers reach from an ordered one is ordered. *)
Lemma server_punch_rowid_order w st r :
  Spec.rowid_order (Server.db st) →
  Spec.rowid_order (Server.db (snd (Server.handle_punch w st r))).
Proof.
  intros Ht. unfold Server.handle_punch.
  destruct (Server.read_body r) as [body |]; [| assumption].
  destruct (Server.json_loads body) as [data |]; [| assumption].
  destruct (let* employee_id := Py.get data "employee_id" in _)
    as [[[[e a] la] lo] |]; [| assumption].
  destruct (negb (Py.truthy e) || _); [assumption |].
  destruct (Sqlite.insert _ _ _ _ _ _) eqn:Hi; [| assumption].
  simpl. eapply insert_rowid_order; eassumption.
Qed.

Lemma server_run_rowid_order `{Cred.Hasher} reqs st :
  Spec.rowid_order (Server.db st) →
  Spec.rowid_order (Server.db (Server.run st reqs)).
Proof.
  revert st. induction reqs as [| [[m w] r] reqs IH]; intros st Ht; simpl.
  - assumption.
  - apply IH. destruct m; simpl.
    + unfold Server.do_GET.
      repeat (match goal with
              | |- context [if ?b then _ else _] => destruct b
              end; try assumption).
    + unfold Server.do_POST.
      destruct (String.eqb _ _); [now apply server_punch_rowid_order |].
      destruct (String.eqb _ _); [| assumption].
      unfold Server.handle_login.
      destruct (let* body := Server.read_body r in _) as [[|] |]; assumption.
Qed.

Lemma server_csv_line rec :
  Server.csv_line rec = Str.join "," (App.csv_fields rec).
Proof. reflexivity. Qed.

Lemma app_header_row :
  App.writerow App.csv_header
  = Server.csv_header
    +:+ String (ascii_of_nat 13) (String (ascii_of_nat 10) "").
Proof. reflexivity. Qed.


End CsvExport.

Lemma three_rows_rowid_order : Spec.rowid_order Sample.three_rows.
Proof.
  unfold Spec.rowid_order. simpl.
  repeat (constructor; simpl; try lia).
Qed.


(* ===================================================================== *)
(** ** The two implementations side by side *)

(** C8, as stated, fails.  A POST /punch whose body is the JSON text of
    [{employee_id: E1, action: out}] and whose media type is not JSON is
    decoded and stored by server.py, which answers 200, while in app.py
    [request.get_json()] does not decode it, whatever the release of Flask:
    no 200 is sent and nothing is stored.  And a GET of /index.html is
    served by server.py (200) and is no route of app.py (404). *)
Lemma punch_media_type_differs :
  (∀ ft : FloatText,
     Http.status_of
       (fst (@Server.handle_punch ft Sample.world Sample.state
               (Sample.punch_request Sample.punch_out)))
     = Some 200%nat
     ∧ length
         (Sqlite.rows
            (Server.db
               (snd (@Server.handle_punch ft Sample.world Sample.state
                       (Sample.punch_request Sample.punch_out)))))
       = 1%nat)
  ∧ (∀ (ft : FloatText) (release : App.flask),
       Http.status_of
         (fst (@App.punch ft Sample.app_world Sample.app_state
                 (Sample.flask_punch_request release false
                    (Some (Py.Dict Sample.punch_out)))))
       ≠ Some 200%nat
       ∧ snd (@App.punch ft Sample.app_world Sample.app_state
                (Sample.flask_punch_request release false
                   (Some (Py.Dict Sample.punch_out))))
         = Sample.app_state)
  ∧ (∀ (ft : FloatText) (h : Cred.Hasher),
       Http.status_of
         (fst (@Server.do_GET ft Sample.world Sample.state
                 (Sample.get_request "/index.html" None)))
       = Some 200%nat
       ∧ Http.status_of
           (fst (@App.dispatch ft h (App.configure ∅) "/index.html"
                   Sample.app_world Sample.app_state Sample.app_get_request))
         = Some 404%nat).
Proof.
  split; [| split].
  - intros ft. split; vm_compute; reflexivity.
  - intros ft release. destruct release; split; vm_compute;
      try reflexivity; discriminate.
  - intros ft h. split; vm_compute; reflexivity.
Qed.

Section SideBySide.
Context `{FloatText}.

(** C8, amended: on every POST /punch whose body both handlers receive
    decoded to the same JSON value, at the same time and on the same table,
    server.py and app.py leave the same table and give the same success
    flag; when one sends a response the other sends one with the same
    status; when an exception escapes one, the same exception escapes the
    other and the table is as it was, but then the client of server.py gets
    no response while the client of app.py gets the 500 of Flask.  On a
    body that is not JSON, server.py answers 400 and app.py answers with
    the status Flask aborts with, both leaving the table as it was.  (They
    are not identical on every request.) *)
Theorem punch_same_outcome :
  (∀ ws sts rs body data wa sta ra,
     Server.read_body rs = Ok body →
     Server.json_loads body = Some data →
     App.get_json ra = App.Decoded data →
     Server.utcnow_isoformat ws = App.utcnow_isoformat wa →
     Server.db sts = App.db sta →
     let os := fst (Server.handle_punch ws sts rs) in
     let oa := fst (App.punch wa sta ra) in
     Server.db (snd (Server.handle_punch ws sts rs))
     = App.db (snd (App.punch wa sta ra))
     ∧ Http.success_of os = Http.success_of oa
     ∧ ((∃ code,
           Server.reply_of os = Http.Status code
           ∧ App.reply_of oa = Http.Status code)
        ∨ (∃ e,
             os = Http.Failed e ∧ oa = Http.Failed e
             ∧ Server.reply_of os = Http.NoReply
             ∧ App.reply_of oa = Http.Status 500
             ∧ snd (Server.handle_punch ws sts rs) = sts
             ∧ snd (App.punch wa sta ra) = sta)))
  ∧ (∀ ws sts rs body wa sta ra code,
       Server.read_body rs = Ok body →
       Server.json_loads body = None →
       App.get_json ra = App.Aborted code →
       Http.status_of (fst (Server.handle_punch ws sts rs)) = Some 400%nat
       ∧ Http.status_of (fst (App.punch wa sta ra)) = Some code
       ∧ snd (Server.handle_punch ws sts rs) = sts
       ∧ snd (App.punch wa sta ra) = sta).
Proof.
  split.
  - intros ws sts rs body data wa sta ra Hb Hj Hg Hnow Hdb. cbv zeta.
    unfold Server.handle_punch, App.punch. rewrite Hb, Hj, Hg.
    destruct data as [| b | z | f | s | | items | d];
      try (cbn; split; [assumption |]; split; [reflexivity |];
           right; eexists; repeat split; reflexivity).
    cbn [Py.get bind]. rewrite Hnow, Hdb.
    destruct (Py.truthy (default Py.None_ (d !! "employee_id")));
      cbn [negb orb];
      [| cbn; split; [assumption |]; split; [reflexivity |];
         left; eexists; split; reflexivity].
    destruct (Py.in_strs (default Py.None_ (d !! "action")) ["in"; "out"])
      eqn:Ha; cbn [negb].
    + rewrite (in_strs_truthy _ Ha). cbn [negb].
      destruct (Sqlite.insert _ _ _ _ _ _).
      * cbn. split; [reflexivity |]. split; [reflexivity |].
        left. eexists. split; reflexivity.
      * cbn. split; [assumption |]. split; [reflexivity |].
        right. eexists. repeat split; reflexivity.
    + destruct (Py.truthy (default Py.None_ (d !! "action"))); cbn [negb];
        (cbn; split; [assumption |]; split; [reflexivity |];
         left; eexists; split; reflexivity).
  - intros ws sts rs body wa sta ra code Hb Hj Hg.
    unfold Server.handle_punch, App.punch. rewrite Hb, Hj, Hg.
    repeat split.
Qed.

End SideBySide.

(** The theorem on C8 at the punch [{employee_id: E1, action: in,
    latitude: 1.5, longitude: 2.5}] delivered to both handlers: both answer
    200. *)
Lemma punch_same_outcome_witness :
  Server.db
    (snd (@Server.handle_punch Sample.float_text_sample Sample.world
            Sample.state (Sample.punch_request Sample.punch_in)))
  = App.db
      (snd (@App.punch Sample.float_text_sample Sample.app_world
              Sample.app_state (Sample.app_punch_request Sample.punch_in)))
  ∧ Server.reply_of
      (fst (@Server.handle_punch Sample.float_text_sample Sample.world
              Sample.state (Sample.punch_request Sample.punch_in)))
    = Http.Status 200
  ∧ App.reply_of
      (fst (@App.punch Sample.float_text_sample Sample.app_world
              Sample.app_state (Sample.app_punch_request Sample.punch_in)))
    = Http.Status 200.
Proof.
  destruct (proj1 (@punch_same_outcome Sample.float_text_sample)
              Sample.world Sample.state
              (Sample.punch_request Sample.punch_in)
              _ _ Sample.app_world Sample.app_state
              (Sample.app_punch_request Sample.punch_in)
              eq_refl eq_refl eq_refl eq_refl eq_refl)
    as (Hdb & _ & _).
  split; [exact Hdb |]. split; reflexivity.
Defined.

(* ===================================================================== *)
(** ** What [csv.writer] writes can be read back *)

Lemma append_cons x (a b : string) : String x a +:+ b = String x (a +:+ b).
Proof. reflexivity. Qed.

Lemma append_assoc (a b c : string) : (a +:+ b) +:+ c = a +:+ (b +:+ c).
Proof.
  induction a as [| x a IH]; [reflexivity |].
  rewrite !append_cons. now f_equal.
Qed.

Lemma append_empty_r (a : string) : a +:+ "" = a.
Proof.
  induction a as [| x a IH]; [reflexivity |].
  rewrite append_cons. now f_equal.
Qed.

Lemma pushes_field f fields rest :
  Csv.pushes f (("" :: fields) :: rest) = (f :: fields) :: rest.
Proof.
  induction f as [| c f IH]; simpl; [reflexivity | now rewrite IH].
Qed.

Lemma read_after_field m s :
  Csv.after_field s → m ≠ Csv.Quoted → m ≠ Csv.AfterReturn →
  Csv.read m s = Csv.read Csv.Unquoted s.
Proof.
  intros (d & s' & -> & Hd) Hq Hr.
  destruct Hd as [-> | ->]; destruct m; try reflexivity; congruence.
Qed.

Lemma needs_quotes_cons c f :
  App.needs_quotes (String c f) = false →
  Ascii.eqb c "," = false ∧ Ascii.eqb c (ascii_of_nat 34) = false
  ∧ Ascii.eqb c (ascii_of_nat 13) = false
  ∧ Ascii.eqb c (ascii_of_nat 10) = false
  ∧ App.needs_quotes f = false.
Proof.
  unfold App.needs_quotes. cbn [Str.mem].
  rewrite (Ascii.eqb_sym "," c), (Ascii.eqb_sym (ascii_of_nat 34) c),
    (Ascii.eqb_sym (ascii_of_nat 13) c), (Ascii.eqb_sym (ascii_of_nat 10) c).
  destruct (Ascii.eqb c ","), (Ascii.eqb c (ascii_of_nat 34)),
    (Ascii.eqb c (ascii_of_nat 13)), (Ascii.eqb c (ascii_of_nat 10));
    cbn [orb]; rewrite ?orb_true_r; try discriminate.
  intros Hf. repeat split; assumption.
Qed.

Lemma read_cons m c s :
  Csv.read m (String c s)
  = let quote := Ascii.eqb c (ascii_of_nat 34) in
    let comma := Ascii.eqb c "," in
    let cr := Ascii.eqb c (ascii_of_nat 13) in
    let lf := Ascii.eqb c (ascii_of_nat 10) in
    let plain :=
      if comma then Csv.new_field (Csv.read Csv.StartField s)
      else if cr then Csv.read Csv.AfterReturn s
      else Csv.push c (Csv.read Csv.Unquoted s) in
    match m with
    | Csv.StartRecord | Csv.StartField =>
        if quote then Csv.read Csv.Quoted s else plain
    | Csv.Unquoted => plain
    | Csv.Quoted =>
        if quote then Csv.read Csv.AfterQuote s
        else Csv.push c (Csv.read Csv.Quoted s)
    | Csv.AfterQuote => if quote then Csv.push c (Csv.read Csv.Quoted s) else plain
    | Csv.AfterReturn =>
        if lf then [""] :: Csv.read Csv.StartRecord s
        else Csv.push c (Csv.read Csv.Unquoted s)
    end.
Proof. reflexivity. Qed.

(** A field written without quotes is read as it is. *)
Lemma read_plain_field f s m :
  App.needs_quotes f = false → Csv.after_field s →
  m = Csv.StartRecord ∨ m = Csv.StartField ∨ m = Csv.Unquoted →
  Csv.read m (f +:+ s) = Csv.pushes f (Csv.read Csv.Unquoted s).
Proof.
  revert m. induction f as [| c f IH]; intros m Hf Hs Hm.
  - apply read_after_field; [assumption | |];
      destruct Hm as [-> | [-> | ->]]; discriminate.
  - apply needs_quotes_cons in Hf as (Hc & Hq & Hr & Hl & Hf).
    rewrite append_cons, read_cons. cbv zeta. rewrite Hc, Hq, Hr.
    rewrite (IH Csv.Unquoted Hf Hs) by (right; now right).
    destruct Hm as [-> | [-> | ->]]; reflexivity.
Qed.

(** A field written in quotes is read as it was before the quoting. *)
Lemma read_quoted_field f s :
  Csv.after_field s →
  Csv.read Csv.Quoted (App.double_quotes f +:+ App.quote +:+ s)
  = Csv.pushes f (Csv.read Csv.Unquoted s).
Proof.
  intros Hs. induction f as [| c f IH].
  - change (Csv.read Csv.Quoted (String (ascii_of_nat 34) s)
            = Csv.read Csv.Unquoted s).
    rewrite read_cons. cbv zeta. rewrite Ascii.eqb_refl.
    apply read_after_field; [assumption | discriminate | discriminate].
  - cbn [App.double_quotes Csv.pushes].
    destruct (Ascii.eqb c (ascii_of_nat 34)) eqn:Hq.
    + rewrite !append_cons, read_cons. cbv zeta. rewrite Hq.
      rewrite read_cons. cbv zeta. rewrite Hq. now rewrite IH.
    + rewrite !append_cons, read_cons. cbv zeta. rewrite Hq. now rewrite IH.
Qed.

Lemma read_field f s m :
  Csv.after_field s → m = Csv.StartRecord ∨ m = Csv.StartField →
  Csv.read m (App.quoted f +:+ s) = Csv.pushes f (Csv.read Csv.Unquoted s).
Proof.
  intros Hs Hm. unfold App.quoted.
  destruct (App.needs_quotes f) eqn:Hf.
  - rewrite !append_assoc.
    change (App.quote +:+ (App.double_quotes f +:+ (App.quote +:+ s)))
      with (String (ascii_of_nat 34)
              (App.double_quotes f +:+ App.quote +:+ s)).
    rewrite read_cons. cbv zeta. rewrite Ascii.eqb_refl.
    destruct Hm as [-> | ->]; apply (read_quoted_field f s Hs).
  - apply read_plain_field; [assumption | assumption |].
    destruct Hm as [-> | ->]; [now left | right; now left].
Qed.

Lemma read_end_of_line rest :
  Csv.read Csv.Unquoted (Csv.crlf +:+ rest)
  = [""] :: Csv.read Csv.StartRecord rest.
Proof. reflexivity. Qed.

Lemma read_comma s :
  Csv.read Csv.Unquoted ("," +:+ s) = Csv.new_field (Csv.read Csv.StartField s).
Proof. reflexivity. Qed.

(** A line of fields, as [writerow] joins them, is read as one record. *)
Lemma read_fields fields rest m :
  fields ≠ [] → m = Csv.StartRecord ∨ m = Csv.StartField →
  Csv.read m (Str.join "," (map App.quoted fields) +:+ Csv.crlf +:+ rest)
  = fields :: Csv.read Csv.StartRecord rest.
Proof.
  revert m. induction fields as [| f fields IH]; intros m Hne Hm;
    [congruence |].
  destruct fields as [| g fields].
  - cbn [map Str.join]. rewrite (read_field f (Csv.crlf +:+ rest) m); [| | assumption].
    + rewrite read_end_of_line. apply pushes_field.
    + exists (ascii_of_nat 13), (String (ascii_of_nat 10) rest).
      split; [reflexivity | now right].
  - change (Str.join "," (map App.quoted (f :: g :: fields)))
      with (App.quoted f +:+ "," +:+ Str.join "," (map App.quoted (g :: fields))).
    rewrite !append_assoc.
    rewrite (read_field f _ m); [| | assumption].
    + rewrite read_comma.
      rewrite (IH Csv.StartField) by (congruence || now right).
      apply pushes_field.
    + eexists _, _. split; [reflexivity | now left].
Qed.

Lemma read_writerow fields rest :
  fields ≠ [] →
  Csv.read Csv.StartRecord (App.writerow fields +:+ rest)
  = fields :: Csv.read Csv.StartRecord rest.
Proof.
  intros Hne. unfold App.writerow.
  destruct fields as [| f fields]; [congruence |].
  destruct f as [| c f]; destruct fields as [| g fields];
    try (rewrite append_assoc; apply read_fields;
         [discriminate | now left]).
  reflexivity.
Qed.

Lemma join_empty_cons x l : Str.join "" (x :: l) = x +:+ Str.join "" l.
Proof.
  destruct l; cbn [Str.join]; [now rewrite append_empty_r | reflexivity].
Qed.

(** Round trip of the writer: the records written are the records read. *)
Lemma read_written records :
  Forall (fun fields => fields ≠ []) records →
  Csv.reader (Str.join "" (map App.writerow records)) = records.
Proof.
  unfold Csv.reader. induction 1 as [| fields records Hne _ IH].
  - reflexivity.
  - change (map App.writerow (fields :: records))
      with (App.writerow fields :: map App.writerow records).
    rewrite join_empty_cons, read_writerow by assumption. now rewrite IH.
Qed.

(** The export of app.py, read back, is the header followed by the records
    of the table in the order of the query, whatever the fields hold. *)
Lemma app_export_round_trip `{FloatText} t :
  Csv.reader (App.csv_data t)
  = App.csv_header :: map App.csv_fields (Sqlite.order_by_timestamp t).
Proof.
  unfold App.csv_data.
  rewrite <- (map_map App.csv_fields App.writerow).
  change (App.writerow App.csv_header
          :: map App.writerow
               (map App.csv_fields (Sqlite.order_by_timestamp t)))
    with (map App.writerow
            (App.csv_header
             :: map App.csv_fields (Sqlite.order_by_timestamp t))).
  apply read_written. constructor; [discriminate |].
  apply Forall_forall. intros fields Hin.
  apply list_elem_of_In, in_map_iff in Hin as (rec & <- & _). discriminate.
Qed.

(** C7 is violated by server.py.  The punch whose employee_id is
    [X,in,2024-05-01T09:00:00,,] followed by a line feed and [Y] leaves one
    row; two plain punches by X and by Y leave two; server.py exports both
    tables as the same text, so that nothing can read the records back from
    its export.  The export of app.py, whose [csv.writer] quotes such a
    field, tells the two tables apart, and read back it gives the records
    of every table. *)
Theorem server_export_ambiguous `{FloatText} `{Cred.Hasher} :
  Server.db
    (Server.run Sample.state
       [(Server.POST, Sample.world_at "2024-05-01T10:00:00",
         Sample.punch_request Sample.punch_crafted)])
  = Sample.crafted_table
  ∧ Server.db
      (Server.run Sample.state
         [(Server.POST, Sample.world_at "2024-05-01T09:00:00",
           Sample.punch_request (Sample.punch_by "X"));
          (Server.POST, Sample.world_at "2024-05-01T10:00:00",
           Sample.punch_request (Sample.punch_by "Y"))])
    = Sample.plain_table
  ∧ Server.csv_data Sample.crafted_table = Server.csv_data Sample.plain_table
  ∧ length (Sqlite.order_by_timestamp Sample.crafted_table) = 1%nat
  ∧ length (Sqlite.order_by_timestamp Sample.plain_table) = 2%nat
  ∧ ¬ (∃ parse : string → list (list string),
         ∀ t, parse (Server.csv_data t)
              = map App.csv_fields (Sqlite.order_by_timestamp t))
  ∧ App.csv_data Sample.crafted_table ≠ App.csv_data Sample.plain_table
  ∧ (∀ t, Csv.reader (App.csv_data t)
          = App.csv_header
            :: map App.csv_fields (Sqlite.order_by_timestamp t)).
Proof.
  assert (Hsame : Server.csv_data Sample.crafted_table
                  = Server.csv_data Sample.plain_table)
    by (vm_compute; reflexivity).
  repeat apply conj; try (vm_compute; reflexivity); try exact Hsame.
  - intros [parse Hparse].
    pose proof (Hparse Sample.crafted_table) as H1.
    pose proof (Hparse Sample.plain_table) as H2.
    rewrite Hsame, H2 in H1. apply (f_equal (@length _)) in H1.
    vm_compute in H1. discriminate H1.
  - intros E. vm_compute in E. discriminate E.
  - apply app_export_round_trip.
Qed.

(* ===================================================================== *)
(** * More of the two servers *)


(* ===================================================================== *)
(** ** Splitting and joining *)

Lemma split_nonempty sep s : Str.split sep s ≠ [].
Proof.
  destruct s as [| c s]; simpl; [discriminate |].
  destruct (Ascii.eqb c sep); [discriminate |].
  destruct (Str.split sep s); discriminate.
Qed.

Lemma mem_cons c d s :
  Str.mem c (String d s) = Ascii.eqb c d || Str.mem c s.
Proof. reflexivity. Qed.

Lemma mem_append c a b : Str.mem c (a +:+ b) = Str.mem c a || Str.mem c b.
Proof.
  induction a as [| d a IH]; [reflexivity |].
  rewrite append_cons, !mem_cons, IH. apply orb_assoc.
Qed.

(** A piece without the separator, in front of a text: it joins the first
    piece of the text. *)
Lemma split_piece sep p s :
  Str.mem sep p = false →
  Str.split sep (p +:+ s)
  = match Str.split sep s with
    | h :: t => (p +:+ h) :: t
    | [] => [p]
    end.
Proof.
  induction p as [| c p IH]; intros Hp.
  - change ("" +:+ s) with s. destruct (Str.split sep s) eqn:E; [| reflexivity].
    now destruct (split_nonempty sep s).
  - rewrite mem_cons in Hp. apply orb_false_elim in Hp as [Hc Hp].
    rewrite append_cons. cbn [Str.split].
    rewrite Ascii.eqb_sym, Hc, (IH Hp).
    destruct (Str.split sep s); reflexivity.
Qed.

Lemma split_join sep pieces :
  pieces ≠ [] →
  Forall (fun p => Str.mem sep p = false) pieces →
  Str.split sep (Str.join (String sep "") pieces) = pieces.
Proof.
  induction pieces as [| p pieces IH]; intros Hne Hp; [congruence |].
  apply Forall_cons_iff in Hp as [Hp Hrest].
  destruct pieces as [| q pieces].
  - cbn [Str.join]. rewrite <- (append_empty_r p) at 1.
    rewrite (split_piece sep p "" Hp). cbn. now rewrite append_empty_r.
  - change (Str.join (String sep "") (p :: q :: pieces))
      with (p +:+ String sep (Str.join (String sep "") (q :: pieces))).
    rewrite (split_piece sep p _ Hp). cbn [Str.split].
    rewrite Ascii.eqb_refl, append_empty_r.
    now rewrite IH by (assumption || discriminate).
Qed.

(* ===================================================================== *)
(** ** Reading the session cookie *)

Lemma after_session_prefix v : Str.after "=" ("session_id=" +:+ v) = Some v.
Proof. reflexivity. Qed.

Lemma prefix_empty s : String.prefix "" s = true.
Proof. now destruct s. Qed.

Lemma prefix_cons a s1 s2 :
  String.prefix (String a s1) (String a s2) = String.prefix s1 s2.
Proof.
  cbn [String.prefix]. destruct (ascii_dec a a); [reflexivity | congruence].
Qed.

Lemma prefix_append p s : String.prefix p (p +:+ s) = true.
Proof.
  induction p as [| a p IH]; [apply prefix_empty |].
  now rewrite append_cons, prefix_cons.
Qed.

(** The loop over the pieces of a Cookie header. *)
Lemma first_session_id_found before c after v :
  Forall (fun p => String.prefix "session_id=" (Str.strip p) = false) before →
  Str.strip c = "session_id=" +:+ v →
  Server.first_session_id (before ++ c :: after) = Some v.
Proof.
  induction 1 as [| p before Hp _ IH]; intros Hc; simpl.
  - rewrite Hc, prefix_append. apply after_session_prefix.
  - rewrite Hp. now apply IH.
Qed.

Lemma first_session_id_none pieces :
  Forall (fun p => String.prefix "session_id=" (Str.strip p) = false) pieces →
  Server.first_session_id pieces = None.
Proof.
  induction 1 as [| p pieces Hp _ IH]; simpl; [reflexivity |].
  now rewrite Hp.
Qed.

Lemma join_semicolon_empty pieces :
  pieces ≠ [] → Forall (fun p => Str.mem ";" p = false) pieces →
  Str.join ";" pieces = "" → pieces = [""].
Proof.
  intros Hne Hp Hj. rewrite <- (split_join ";" pieces Hne Hp).
  change (String ";" "") with ";". now rewrite Hj.
Qed.

Lemma strip_empty : Str.strip "" = "".
Proof. reflexivity. Qed.

(** X1: [get_session_id] returns the value of the first cookie of the
    header whose name, once the spaces around the cookie are stripped, is
    session_id (the value is what follows the first equals sign, further
    equals signs included), and nothing when the header has no such
    cookie. *)
Theorem get_session_id_first_cookie r pieces :
  Server.cookie r = Some (Str.join ";" pieces) →
  pieces ≠ [] →
  Forall (fun p => Str.mem ";" p = false) pieces →
  (∀ before c after v,
     pieces = before ++ c :: after →
     Forall (fun p => String.prefix "session_id=" (Str.strip p) = false)
       before →
     Str.strip c = "session_id=" +:+ v →
     Server.get_session_id r = Some v)
  ∧ (Forall (fun p => String.prefix "session_id=" (Str.strip p) = false)
       pieces →
     Server.get_session_id r = None).
Proof.
  intros Hr Hne Hp. unfold Server.get_session_id. rewrite Hr.
  destruct (String.eqb_spec (Str.join ";" pieces) "") as [He | He].
  - apply (join_semicolon_empty pieces Hne Hp) in He. subst pieces. split.
    + intros before c after v Heq _ Hc.
      destruct before as [| b before]; simpl in Heq.
      * injection Heq as <- _. discriminate Hc.
      * injection Heq as _ Heq. now destruct before.
    + reflexivity.
  - change ";" with (String ";" "") at 1 2.
    rewrite (split_join ";"%char pieces Hne Hp). split.
    + intros before c after v -> Hb Hc.
      now apply first_session_id_found.
    + apply first_session_id_none.
Qed.

(** The theorem on [get_session_id] at a header of three cookies. *)
Lemma get_session_id_first_cookie_witness :
  Server.get_session_id
    (Sample.get_request "/admin"
       (Some "theme=dark;  session_id=abc=d ;session_id=other"))
  = Some "abc=d".
Proof.
  apply (proj1 (get_session_id_first_cookie
                  (Sample.get_request "/admin"
                     (Some "theme=dark;  session_id=abc=d ;session_id=other"))
                  ["theme=dark"; "  session_id=abc=d "; "session_id=other"]
                  eq_refl ltac:(discriminate)
                  ltac:(repeat constructor))
           ["theme=dark"] "  session_id=abc=d " ["session_id=other"] "abc=d"
           eq_refl ltac:(repeat constructor) eq_refl).
Defined.

(* ===================================================================== *)
(** ** Sessions *)

Lemma server_punch_sessions `{FloatText} w st r :
  Server.sessions (snd (Server.handle_punch w st r)) = Server.sessions st.
Proof.
  unfold Server.handle_punch.
  destruct (Server.read_body r) as [body |]; [| reflexivity].
  destruct (Server.json_loads body) as [data |]; [| reflexivity].
  destruct (let* employee_id := Py.get data "employee_id" in _)
    as [[[[e a] la] lo] |]; [| reflexivity].
  destruct (negb (Py.truthy e) || _); [reflexivity |].
  destruct (Sqlite.insert _ _ _ _ _ _); reflexivity.
Qed.

(** What [handle_login] does to the state: nothing, or one session more
    for an accepted form. *)
Lemma server_login_state `{Cred.Hasher} w st r :
  snd (Server.handle_login w st r) = st
  ∨ (More.login_accepted w r
     ∧ snd (Server.handle_login w st r)
       = {| Server.db := Server.db st;
            Server.sessions :=
              <[Server.uuid4 w := true]> (Server.sessions st) |}).
Proof.
  unfold Server.handle_login, More.login_accepted.
  destruct (Server.read_body r) as [body |] eqn:Hb; [| now left].
  cbn [bind].
  destruct (Server.parse_qs body) as [params |] eqn:Hq; [| now left].
  cbn [bind].
  destruct (Server.first_value params "username") as [u |] eqn:Hu;
    [| now left].
  cbn [bind].
  destruct (Server.first_value params "password") as [p |] eqn:Hp;
    [| now left].
  cbn [bind Server.login_condition Cred.all_hold Cred.holds Server.login_data
       Cred.eq_opt].
  destruct (String.eqb_spec u (Server.admin_username w)) as [-> | _];
    [| now left].
  destruct (String.eqb_spec p (Server.admin_password w)) as [-> | _];
    [| now left].
  right. split; [| reflexivity]. now exists body, params.
Qed.

Lemma server_logout_sessions st r session_id :
  Server.get_session_id r ≠ Some session_id →
  Server.sessions (snd (Server.handle_logout st r)) !! session_id
  = Server.sessions st !! session_id.
Proof.
  intros Hne. unfold Server.handle_logout. simpl.
  destruct (Server.get_session_id r) as [sid |]; [| reflexivity].
  destruct (negb (String.eqb sid "") && _); [| reflexivity].
  apply lookup_delete_ne. congruence.
Qed.

Lemma server_logout_not_authenticated st r :
  Server.is_authenticated (snd (Server.handle_logout st r)) r = false.
Proof.
  unfold Server.is_authenticated, Server.handle_logout. simpl.
  destruct (Server.get_session_id r) as [sid |]; [| reflexivity].
  destruct (String.eqb sid ""); [reflexivity |]. simpl.
  destruct (bool_decide (is_Some (Server.sessions st !! sid))) eqn:Hs.
  - now rewrite lookup_delete_eq.
  - apply bool_decide_eq_false in Hs.
    destruct (Server.sessions st !! sid) eqn:E; [| reflexivity].
    destruct Hs. now eexists.
Qed.

(** What a GET does to the state: nothing, unless it is the logout. *)
Lemma server_get_state `{FloatText} w st r :
  snd (Server.do_GET w st r) = st
  ∨ (Server.path r = "/admin/logout"
     ∧ snd (Server.do_GET w st r) = snd (Server.handle_logout st r)).
Proof.
  unfold Server.do_GET.
  destruct (String.prefix "/static/" (Server.path r)); [now left |].
  destruct (String.eqb (Server.path r) "/" || _); [now left |].
  destruct (String.eqb (Server.path r) "/admin/login"); [now left |].
  destruct (String.eqb (Server.path r) "/admin"); [now left |].
  destruct (String.eqb_spec (Server.path r) "/admin/logout") as [E | _].
  - right. now split.
  - destruct (String.eqb (Server.path r) "/admin/export"); now left.
Qed.

(** What a POST does to the sessions: nothing, or one session more for an
    accepted login. *)
Lemma server_post_sessions `{FloatText} `{Cred.Hasher} w st r :
  Server.sessions (snd (Server.do_POST w st r)) = Server.sessions st
  ∨ (Server.path r = "/admin/login" ∧ More.login_accepted w r
     ∧ Server.sessions (snd (Server.do_POST w st r))
       = <[Server.uuid4 w := true]> (Server.sessions st)).
Proof.
  unfold Server.do_POST.
  destruct (String.eqb (Server.path r) "/punch");
    [left; apply server_punch_sessions |].
  destruct (String.eqb_spec (Server.path r) "/admin/login") as [E | _];
    [| now left].
  destruct (server_login_state w st r) as [-> | [Ha ->]]; [now left |].
  right. now repeat split.
Qed.

Section Sessions.
Context `{FloatText} `{Cred.Hasher}.

Lemma server_handle_keeps_session m w st r session_id :
  Server.sessions st !! session_id = Some true →
  ¬ More.logs_out session_id (m, w, r) →
  Server.sessions (snd (Server.handle m w st r)) !! session_id = Some true.
Proof.
  intros Hs Hno. destruct m; simpl.
  - destruct (server_get_state w st r) as [-> | [Hpath ->]]; [assumption |].
    rewrite server_logout_sessions; [assumption |].
    intros Hsid. apply Hno. now repeat split.
  - destruct (server_post_sessions w st r) as [-> | (_ & _ & ->)];
      [assumption |].
    destruct (decide (Server.uuid4 w = session_id)) as [-> | Hne].
    + apply lookup_insert_eq.
    + now rewrite lookup_insert_ne.
Qed.

(** X2: a registered session never expires: it stays registered through
    every run of requests that holds no logout naming it, whatever else the
    requests are (punches, failed or accepted logins, logouts of other
    sessions). *)
Theorem session_kept_until_logout reqs st session_id :
  Server.sessions st !! session_id = Some true →
  Forall (fun req => ¬ More.logs_out session_id req) reqs →
  Server.sessions (Server.run st reqs) !! session_id = Some true.
Proof.
  intros Hs Hreqs. revert st Hs.
  induction Hreqs as [| [[m w] r] reqs Hno _ IH]; intros st Hs; simpl.
  - assumption.
  - apply IH. now apply server_handle_keeps_session.
Qed.

Lemma server_handle_session_origin m w st r session_id :
  is_Some (Server.sessions (snd (Server.handle m w st r)) !! session_id) →
  is_Some (Server.sessions st !! session_id)
  ∨ More.issues session_id (m, w, r).
Proof.
  intros Hs. destruct m; simpl in *.
  - left. destruct (server_get_state w st r) as [E | [_ E]];
      rewrite E in Hs; [assumption |].
    unfold Server.handle_logout in Hs. simpl in Hs.
    destruct (Server.get_session_id r) as [sid |]; [| assumption].
    destruct (negb (String.eqb sid "") && _); [| assumption].
    destruct (decide (sid = session_id)) as [-> | Hne].
    + rewrite lookup_delete_eq in Hs. now destruct Hs.
    + now rewrite lookup_delete_ne in Hs.
  - destruct (server_post_sessions w st r) as [E | (Hp & Ha & E)];
      rewrite E in Hs; [now left |].
    destruct (decide (Server.uuid4 w = session_id)) as [Heq | Hne].
    + right. now repeat split.
    + left. now rewrite lookup_insert_ne in Hs.
Qed.

(** X3: no session without a login: a session registered after a run of
    requests was registered before the run, or was drawn by a request of
    the run that is a POST /admin/login carrying the configured user name
    and password. *)
Theorem session_comes_from_login reqs st session_id :
  is_Some (Server.sessions (Server.run st reqs) !! session_id) →
  is_Some (Server.sessions st !! session_id)
  ∨ Exists (More.issues session_id) reqs.
Proof.
  revert st. induction reqs as [| [[m w] r] reqs IH]; intros st Hs; simpl in *.
  - now left.
  - destruct (IH _ Hs) as [Hb | He].
    + destruct (server_handle_session_origin m w st r session_id Hb)
        as [Hst | Hi]; [now left | right; now left].
    + right. now right.
Qed.

Lemma server_handle_sessions_true m w st r :
  More.sessions_true st → More.sessions_true (snd (Server.handle m w st r)).
Proof.
  unfold More.sessions_true. intros Ht sid v. destruct m; simpl.
  - destruct (server_get_state w st r) as [-> | [_ ->]]; [apply Ht |].
    unfold Server.handle_logout. simpl.
    destruct (Server.get_session_id r) as [s |]; [| apply Ht].
    destruct (negb (String.eqb s "") && _); [| apply Ht].
    destruct (decide (s = sid)) as [-> | Hne].
    + now rewrite lookup_delete_eq.
    + rewrite lookup_delete_ne by assumption. apply Ht.
  - destruct (server_post_sessions w st r) as [-> | (_ & _ & ->)];
      [apply Ht |].
    destruct (decide (Server.uuid4 w = sid)) as [-> | Hne].
    + rewrite lookup_insert_eq. congruence.
    + rewrite lookup_insert_ne by assumption. apply Ht.
Qed.

Lemma server_run_sessions_true reqs st :
  More.sessions_true st → More.sessions_true (Server.run st reqs).
Proof.
  revert st. induction reqs as [| [[m w] r] reqs IH]; intros st Ht; simpl.
  - assumption.
  - apply IH. now apply server_handle_sessions_true.
Qed.

(** X4: the registry only ever maps a session to [True], from the empty
    registry the server starts with through every run of requests; so a
    request is authenticated exactly when its cookie names, with a value
    that is not empty, a session that is registered. *)
Theorem authenticated_iff_registered reqs db0 r :
  let st := Server.run {| Server.db := db0; Server.sessions := ∅ |} reqs in
  More.sessions_true st
  ∧ (Server.is_authenticated st r = true
     ↔ ∃ session_id,
         Server.get_session_id r = Some session_id ∧ session_id ≠ ""
         ∧ is_Some (Server.sessions st !! session_id)).
Proof.
  intros st.
  assert (Ht : More.sessions_true st).
  { apply server_run_sessions_true. intros sid v Hs. simpl in Hs.
    now rewrite lookup_empty in Hs. }
  split; [exact Ht |].
  unfold Server.is_authenticated. split.
  - destruct (Server.get_session_id r) as [sid |]; [| discriminate].
    intros Ha. apply andb_prop in Ha as [Hne Hs]. exists sid.
    repeat split.
    + intros ->. discriminate Hne.
    + destruct (Server.sessions st !! sid); [now eexists | discriminate].
  - intros (sid & -> & Hne & [v Hs]). rewrite Hs, (Ht sid v Hs). simpl.
    destruct (String.eqb_spec sid ""); [contradiction | reflexivity].
Qed.

End Sessions.

(** The theorem on the life of a session at a run of a punch, a failed
    login, a look at the dashboard and the logout of another session. *)
Lemma session_kept_until_logout_witness :
  Server.sessions
    (@Server.run Sample.float_text_sample Sample.hasher_sample
       {| Server.db := Sqlite.empty;
          Server.sessions := {[ "tok-1" := true ]} |}
       [(Server.POST, Sample.world, Sample.punch_request Sample.punch_in);
        (Server.POST, Sample.world, Sample.login_request "admin" "nope");
        (Server.GET, Sample.world,
         Sample.get_request "/admin" (Some "session_id=tok-1"));
        (Server.GET, Sample.world,
         Sample.get_request "/admin/logout" (Some "session_id=tok-2"))])
  !! "tok-1" = Some true.
Proof.
  apply (@session_kept_until_logout Sample.float_text_sample
           Sample.hasher_sample).
  - reflexivity.
  - repeat constructor; intros (Hm & Hp & Hs); discriminate.
Defined.

(** The theorem on the origin of a session at a run of one accepted
    login. *)
Lemma session_comes_from_login_witness :
  is_Some ((∅ : gmap string bool) !! "1b4e28ba-2fa1-11d2-883f-0016d3cca427")
  ∨ Exists (More.issues "1b4e28ba-2fa1-11d2-883f-0016d3cca427")
      [(Server.POST, Sample.world, Sample.login_request "admin" "admin123")].
Proof.
  apply (@session_comes_from_login Sample.float_text_sample
           Sample.hasher_sample
           [(Server.POST, Sample.world,
             Sample.login_request "admin" "admin123")]
           Sample.state).
  now eexists.
Defined.

(* ===================================================================== *)
(** ** Login, dashboard, logout *)

Lemma rstrip_cons c s :
  s ≠ "" → Str.rstrip s = s → Str.rstrip (String c s) = String c s.
Proof.
  intros Hne Hs. cbn [Str.rstrip]. rewrite Hs. now destruct s.
Qed.

(** The cookie the browser sends back for the one the login set. *)
Lemma session_cookie_read r tok :
  More.token tok →
  Server.cookie r = Some ("session_id=" +:+ tok) →
  Server.get_session_id r = Some tok.
Proof.
  intros (Hne & Hsemi & Hstrip) Hr.
  unfold Server.get_session_id. rewrite Hr.
  replace (String.eqb ("session_id=" +:+ tok) "") with false by reflexivity.
  assert (Hsplit : Str.split ";" ("session_id=" +:+ tok)
                   = ["session_id=" +:+ tok]).
  { apply (split_join ";"%char ["session_id=" +:+ tok]);
      [discriminate | repeat constructor; exact Hsemi]. }
  rewrite Hsplit. cbn [Server.first_session_id].
  assert (Hs : Str.strip ("session_id=" +:+ tok) = "session_id=" +:+ tok).
  { unfold Str.strip.
    change (Str.lstrip ("session_id=" +:+ tok)) with ("session_id=" +:+ tok).
    change ("session_id=" +:+ tok)
      with (String "s" (String "e" (String "s" (String "s" (String "i"
             (String "o" (String "n" (String "_" (String "i" (String "d"
             (String "=" tok))))))))))).
    repeat (apply rstrip_cons; [discriminate |]).
    now apply rstrip_cons. }
  rewrite Hs, prefix_append. apply after_session_prefix.
Qed.

Lemma authenticated_of_session st r session_id :
  Server.get_session_id r = Some session_id → session_id ≠ "" →
  Server.sessions st !! session_id = Some true →
  Server.is_authenticated st r = true.
Proof.
  intros Hr Hne Hs. unfold Server.is_authenticated. rewrite Hr, Hs. simpl.
  destruct (String.eqb_spec session_id ""); [contradiction | reflexivity].
Qed.

Section Journey.
Context `{FloatText} `{Cred.Hasher}.

(** X5: login, dashboard, logout.  After an accepted POST /admin/login,
    a request carrying the cookie the login set is authenticated: its GET
    of /admin is answered 200 with the dashboard built from the template;
    after its GET of /admin/logout (always a 302 to /admin/login with the
    cookie expired) the same GET of /admin is sent back to /admin/login.
    The database is untouched throughout. *)
Theorem login_dashboard_logout w st login r content :
  More.login_accepted w login →
  More.token (Server.uuid4 w) →
  Server.cookie r = Some ("session_id=" +:+ Server.uuid4 w) →
  Server.path r = "/admin" →
  Server.templates w !! "admin.html" = Some content →
  let st1 := snd (Server.handle_login w st login) in
  let st2 := snd (Server.handle_logout st1 r) in
  fst (Server.handle_login w st login)
  = Http.Sent
      {| Http.status := 302;
         Http.headers :=
           [("Location", "/admin");
            ("Set-Cookie",
             "session_id=" +:+ Server.uuid4 w +:+ "; HttpOnly; Path=/")];
         Http.content := Http.NoBody |}
  ∧ Server.is_authenticated st1 r = true
  ∧ Server.do_GET w st1 r
    = (Http.Sent
         {| Http.status := 200;
            Http.headers := Server.html_headers;
            Http.content :=
              Http.Text
                (Str.replace More.placeholder
                   (Str.join ""
                      (map Server.table_row
                         (Sqlite.order_by_timestamp_desc (Server.db st))))
                   content) |}, st1)
  ∧ fst (Server.handle_logout st1 r)
    = Http.Sent
        {| Http.status := 302;
           Http.headers :=
             [("Set-Cookie",
               "session_id=deleted; expires=Thu, 01 Jan 1970 00:00:00 GMT; Path=/");
              ("Location", "/admin/login")];
           Http.content := Http.NoBody |}
  ∧ Server.do_GET w st2 r = (Http.Sent (Http.redirect "/admin/login"), st2)
  ∧ Server.db st2 = Server.db st.
Proof.
  intros (body & params & Hb & Hq & Hu & Hp) Htok Hc Hpath Htpl st1 st2.
  pose proof (server_login_cases w st login body params _ _ Hb Hq Hu Hp)
    as Hlogin.
  rewrite !String.eqb_refl in Hlogin. simpl in Hlogin.
  assert (Hsid : Server.get_session_id r = Some (Server.uuid4 w))
    by now apply session_cookie_read.
  assert (Hst1 : st1 = {| Server.db := Server.db st;
                          Server.sessions :=
                            <[Server.uuid4 w := true]> (Server.sessions st) |})
    by (unfold st1; now rewrite Hlogin).
  assert (Ha : Server.is_authenticated st1 r = true).
  { apply (authenticated_of_session st1 r (Server.uuid4 w) Hsid);
      [apply Htok |].
    rewrite Hst1. apply lookup_insert_eq. }
  assert (Hout : Server.is_authenticated st2 r = false)
    by apply server_logout_not_authenticated.
  repeat apply conj.
  - now rewrite Hlogin.
  - exact Ha.
  - unfold Server.do_GET, Server.serve_admin. rewrite Hpath. simpl.
    rewrite Ha, Htpl. simpl. now rewrite Hst1.
  - reflexivity.
  - unfold Server.do_GET, Server.serve_admin. rewrite Hpath. simpl.
    now rewrite Hout.
  - unfold st2. simpl. now rewrite Hst1.
Qed.

End Journey.

Lemma sample_token : More.token "1b4e28ba-2fa1-11d2-883f-0016d3cca427".
Proof. repeat split. discriminate. Qed.

(** The theorem on login, dashboard and logout at the default credentials
    and a template that is the placeholder inside a table. *)
Lemma login_dashboard_logout_witness :
  let w := More.world_with_admin ("<table>" +:+ More.placeholder +:+ "</table>") in
  let r :=
    Sample.get_request "/admin"
      (Some "session_id=1b4e28ba-2fa1-11d2-883f-0016d3cca427") in
  let st1 :=
    snd (@Server.handle_login Sample.hasher_sample w Sample.state
           (Sample.login_request "admin" "admin123")) in
  Server.is_authenticated st1 r = true
  ∧ Http.status_of (fst (@Server.do_GET Sample.float_text_sample w st1 r))
    = Some 200%nat
  ∧ @Server.do_GET Sample.float_text_sample w
      (snd (Server.handle_logout st1 r)) r
    = (Http.Sent (Http.redirect "/admin/login"),
       snd (Server.handle_logout st1 r)).
Proof.
  intros w r st1.
  pose proof (@login_dashboard_logout Sample.float_text_sample
                Sample.hasher_sample w Sample.state
                (Sample.login_request "admin" "admin123") r _
                ltac:(eexists _, _; repeat split; reflexivity)
                sample_token eq_refl eq_refl eq_refl)
    as (_ & Ha & Hd & _ & Hl & _).
  split; [exact Ha |]. split; [| exact Hl].
  subst st1 r w. now rewrite Hd.
Defined.

(* ===================================================================== *)
(** ** Logout *)

(** X6: [handle_logout] always answers the same 302 to /admin/login with
    the cookie expired, whether or not the cookie names a session.  It
    unregisters the session the cookie names and no other (a cookie with an
    empty value names none), never touches the database, leaves the same
    request unauthenticated, and doing it twice changes nothing more. *)
Theorem logout_unregisters st r :
  fst (Server.handle_logout st r)
  = Http.Sent
      {| Http.status := 302;
         Http.headers :=
           [("Set-Cookie",
             "session_id=deleted; expires=Thu, 01 Jan 1970 00:00:00 GMT; Path=/");
            ("Location", "/admin/login")];
         Http.content := Http.NoBody |}
  ∧ Server.sessions (snd (Server.handle_logout st r))
    = match Server.get_session_id r with
      | Some session_id =>
          if String.eqb session_id "" then Server.sessions st
          else delete session_id (Server.sessions st)
      | None => Server.sessions st
      end
  ∧ Server.db (snd (Server.handle_logout st r)) = Server.db st
  ∧ Server.is_authenticated (snd (Server.handle_logout st r)) r = false
  ∧ Server.handle_logout (snd (Server.handle_logout st r)) r
    = Server.handle_logout st r.
Proof.
  assert (Hs : Server.sessions (snd (Server.handle_logout st r))
               = match Server.get_session_id r with
                 | Some session_id =>
                     if String.eqb session_id "" then Server.sessions st
                     else delete session_id (Server.sessions st)
                 | None => Server.sessions st
                 end).
  { unfold Server.handle_logout. simpl.
    destruct (Server.get_session_id r) as [sid |]; [| reflexivity].
    destruct (String.eqb sid ""); [reflexivity |]. simpl.
    destruct (bool_decide (is_Some (Server.sessions st !! sid))) eqn:E;
      [reflexivity |].
    apply bool_decide_eq_false in E. symmetry. apply delete_id.
    destruct (Server.sessions st !! sid) eqn:El; [| reflexivity].
    destruct E. now eexists. }
  repeat apply conj.
  - reflexivity.
  - exact Hs.
  - reflexivity.
  - apply server_logout_not_authenticated.
  - unfold Server.handle_logout. cbn [snd Server.db Server.sessions].
    f_equal. f_equal.
    destruct (Server.get_session_id r) as [sid |]; [| reflexivity].
    destruct (String.eqb sid "") eqn:He; [reflexivity |].
    cbn [negb andb].
    destruct (bool_decide (is_Some (Server.sessions st !! sid))) eqn:E.
    + rewrite lookup_delete_eq.
      now rewrite (bool_decide_eq_false_2 (is_Some None))
        by (intros [? ?]; discriminate).
    + now rewrite E.
Qed.

(* ===================================================================== *)
(** ** What the handlers leave alone *)

Lemma server_login_db `{Cred.Hasher} w st r :
  Server.db (snd (Server.handle_login w st r)) = Server.db st.
Proof.
  destruct (server_login_state w st r) as [-> | [_ ->]]; reflexivity.
Qed.

(** X7: what the requests never do.  A GET never changes the database,
    and changes nothing at all unless its path is /admin/logout; a punch
    never changes the sessions; a login never changes the database; a POST
    to any path other than /punch and /admin/login changes nothing. *)
Theorem requests_leave_alone `{FloatText} `{Cred.Hasher} w st r :
  Server.db (snd (Server.do_GET w st r)) = Server.db st
  ∧ (snd (Server.do_GET w st r) = st ∨ Server.path r = "/admin/logout")
  ∧ Server.sessions (snd (Server.handle_punch w st r)) = Server.sessions st
  ∧ Server.db (snd (Server.handle_login w st r)) = Server.db st
  ∧ (Server.do_POST w st r = (Http.Sent (Http.send_error 404 "Not Found"), st)
     ∨ Server.path r = "/punch" ∨ Server.path r = "/admin/login").
Proof.
  repeat apply conj.
  - destruct (server_get_state w st r) as [-> | [_ ->]]; reflexivity.
  - destruct (server_get_state w st r) as [E | [E _]]; [now left | now right].
  - apply server_punch_sessions.
  - apply server_login_db.
  - unfold Server.do_POST.
    destruct (String.eqb_spec (Server.path r) "/punch"); [right; now left |].
    destruct (String.eqb_spec (Server.path r) "/admin/login");
      [right; now right | now left].
Qed.

(* ===================================================================== *)
(** ** Row ids without gaps *)

Lemma max_rowid_le rs n :
  0 <= n → Forall (fun r => Sqlite.id r <= n) rs → Sqlite.max_rowid rs <= n.
Proof.
  intros Hn. induction 1 as [| r rs Hr _ IH]; simpl; lia.
Qed.

Lemma dense_next_rowid t :
  More.dense t → Sqlite.next_rowid t = Z.of_nat (length (Sqlite.rows t)) + 1.
Proof.
  intros [Hid Hseq]. unfold Sqlite.next_rowid. rewrite Hseq.
  assert (Hmax : Sqlite.max_rowid (Sqlite.rows t)
                 <= Z.of_nat (length (Sqlite.rows t))).
  { apply max_rowid_le; [lia |]. apply Forall_forall. intros r Hr.
    apply list_elem_of_lookup in Hr as [i Hi].
    rewrite (Hid i r Hi). apply lookup_lt_Some in Hi. lia. }
  lia.
Qed.

Lemma empty_dense : More.dense Sqlite.empty.
Proof.
  split; [| reflexivity]. intros i row Hi. simpl in Hi.
  now rewrite lookup_nil in Hi.
Qed.

Lemma insert_dense `{FloatText} t e a ts la lo t' :
  Sqlite.insert t e a ts la lo = Ok t' → More.dense t → More.dense t'.
Proof.
  intros Hi Hd. pose proof (dense_next_rowid t Hd) as Hnext.
  revert Hi. unfold Sqlite.insert.
  destruct (Sqlite.bind_param e); simpl; [| discriminate].
  destruct (Sqlite.bind_param a); simpl; [| discriminate].
  destruct (Sqlite.bind_param ts); simpl; [| discriminate].
  destruct (Sqlite.bind_param la); simpl; [| discriminate].
  destruct (Sqlite.bind_param lo); simpl; [| discriminate].
  destruct (Sqlite.text_not_null _); simpl; [| discriminate].
  destruct (Sqlite.text_not_null _); simpl; [| discriminate].
  destruct (Sqlite.text_not_null _); simpl; [| discriminate].
  intros [= <-]. destruct Hd as [Hid Hseq]. split; simpl.
  - intros i row Hrow.
    apply lookup_app_Some in Hrow as [Hl | [Hlen Hr]].
    + now apply Hid.
    + destruct (i - length (Sqlite.rows t))%nat as [| k] eqn:Hk;
        simpl in Hr; [| now rewrite lookup_nil in Hr].
      injection Hr as <-. simpl. rewrite Hnext. lia.
  - rewrite Hnext, length_app. simpl. lia.
Qed.

Section Dense.
Context `{FloatText} `{Cred.Hasher}.

Lemma server_handle_dense m w st r :
  More.dense (Server.db st) →
  More.dense (Server.db (snd (Server.handle m w st r))).
Proof.
  intros Hd. destruct m; simpl.
  - destruct (server_get_state w st r) as [-> | [_ ->]]; assumption.
  - unfold Server.do_POST.
    destruct (String.eqb _ _).
    + unfold Server.handle_punch.
      destruct (Server.read_body r) as [body |]; [| assumption].
      destruct (Server.json_loads body) as [data |]; [| assumption].
      destruct (let* employee_id := Py.get data "employee_id" in _)
        as [[[[e a] la] lo] |]; [| assumption].
      destruct (negb (Py.truthy e) || _); [assumption |].
      destruct (Sqlite.insert _ _ _ _ _ _) eqn:Hi; [| assumption].
      simpl. eapply insert_dense; eassumption.
    + destruct (String.eqb _ _); [| assumption].
      now rewrite server_login_db.
Qed.

Lemma app_view_dense c e w st r :
  More.dense (App.db st) → More.dense (App.db (snd (App.view c e w st r))).
Proof.
  intros Hd. destruct e; simpl; try assumption.
  - unfold App.punch.
    destruct (App.get_json r) as [data | |]; try assumption.
    destruct (let* employee_id := Py.get data "employee_id" in _)
      as [[[[e a] la] lo] |]; [| assumption].
    destruct (negb (Py.truthy e) || _); [assumption |].
    destruct (negb (Py.in_strs a _)); [assumption |].
    destruct (Sqlite.insert _ _ _ _ _ _) eqn:Hi; [| assumption].
    simpl. eapply insert_dense; eassumption.
  - unfold App.admin_login. destruct (App.is_post r); [| assumption].
    destruct (Cred.all_hold _ _) as [[|] |]; assumption.
  - unfold App.admin_dashboard. destruct (negb _); assumption.
  - unfold App.export_csv. destruct (negb _); assumption.
Qed.

(** X8: ids without gaps.  In every table either server builds from the
    empty one, through any run of requests, the row at position k (from 1)
    has the id k and [sqlite_sequence] is the number of rows: a punch that
    is rejected or whose insert fails uses up no id. *)
Theorem ids_count_the_rows :
  (∀ sessions reqs,
     More.dense
       (Server.db
          (Server.run {| Server.db := Sqlite.empty;
                         Server.sessions := sessions |} reqs)))
  ∧ (∀ c reqs, More.dense (App.run c Sqlite.empty reqs)).
Proof.
  split.
  - intros sessions reqs.
    assert (Hgen : ∀ st, More.dense (Server.db st) →
                         More.dense (Server.db (Server.run st reqs))).
    { induction reqs as [| [[m w] r] reqs IH]; intros st Hd; simpl.
      - assumption.
      - apply IH. now apply server_handle_dense. }
    apply Hgen. apply empty_dense.
  - intros c reqs.
    assert (Hgen : ∀ t, More.dense t → More.dense (App.run c t reqs)).
    { induction reqs as [| [[[e w] cookie] r] reqs IH]; intros t Hd; simpl.
      - assumption.
      - apply IH.
        apply (app_view_dense c e w {| App.db := t; App.session := cookie |}).
        assumption. }
    apply Hgen. apply empty_dense.
Qed.

End Dense.

(* ===================================================================== *)
(** ** The dashboard: latest first *)

Lemma after_of_geb (a b : Sqlite.Row) :
  Sqlite.timestamp_ge a b = true → Sqlite.id a < Sqlite.id b → More.after a b.
Proof.
  unfold Sqlite.timestamp_ge. intros Hle Hid.
  destruct (leb_cases _ _ Hle) as [Hlt | Heq].
  - now left.
  - right. now split.
Qed.

Lemma after_geb (a b : Sqlite.Row) :
  More.after a b → Sqlite.timestamp_ge a b = true.
Proof.
  intros [Hlt | [Heq Hid]].
  - apply (before_leb b a). now left.
  - unfold Sqlite.timestamp_ge. rewrite Heq.
    assert (E : String.compare (Sqlite.timestamp b) (Sqlite.timestamp b) = Eq)
      by (apply String_as_OT.cmp_eq; reflexivity).
    unfold String.leb. unfold String_as_OT.cmp in E. now rewrite E.
Qed.

Lemma timestamp_ge_trans (a b c : Sqlite.Row) :
  Sqlite.timestamp_ge a b = true → Sqlite.timestamp_ge b c = true →
  Sqlite.timestamp_ge a c = true.
Proof.
  intros Hab Hbc. apply (timestamp_le_trans c b a); assumption.
Qed.

Lemma insert_sorted_after r l :
  StronglySorted More.after l →
  Forall (fun y => Sqlite.id r < Sqlite.id y) l →
  StronglySorted More.after (Sqlite.insert_sorted Sqlite.timestamp_ge r l).
Proof.
  induction l as [| x l IH]; simpl; intros Hs Hid.
  - constructor; constructor.
  - apply StronglySorted_inv in Hs as [Hs Hx].
    apply Forall_cons_iff in Hid as [Hrx Hid].
    destruct (Sqlite.timestamp_ge r x) eqn:E.
    + constructor.
      * now constructor.
      * constructor.
        -- now apply after_of_geb.
        -- rewrite Forall_forall in *. intros y Hy.
           apply after_of_geb; [| now apply Hid].
           apply timestamp_ge_trans with x; [assumption |].
           apply after_geb. now apply Hx.
    + constructor.
      * now apply IH.
      * apply (Permutation_Forall (Permutation_sym (insert_sorted_perm _ r l))).
        constructor; [| assumption].
        left. now apply leb_false_ltb.
Qed.

Lemma sort_after l :
  StronglySorted (fun a b => Sqlite.id a < Sqlite.id b) l →
  StronglySorted More.after (Sqlite.sort Sqlite.timestamp_ge l).
Proof.
  induction l as [| x l IH]; intros Hs.
  - constructor.
  - apply StronglySorted_inv in Hs as [Hs Hx].
    change (Sqlite.sort Sqlite.timestamp_ge (x :: l))
      with (Sqlite.insert_sorted Sqlite.timestamp_ge x
              (Sqlite.sort Sqlite.timestamp_ge l)).
    apply insert_sorted_after.
    + now apply IH.
    + apply (Permutation_Forall (Permutation_sym (sort_perm _ l))).
      assumption.
Qed.

(** X9: the dashboard of either server shows every record of the table
    once, the latest first: the records it renders are a permutation of the
    rows, in descending order of timestamp and, for equal timestamps, in
    ascending order of id.  server.py writes one [<tr>] for each into the
    page, app.py hands them to the template. *)
Theorem dashboard_latest_first `{FloatText} :
  (∀ w st r content,
     Spec.rowid_order (Server.db st) →
     Server.is_authenticated st r = true →
     Server.templates w !! "admin.html" = Some content →
     ∃ records,
       Permutation records (Sqlite.rows (Server.db st))
       ∧ StronglySorted More.after records
       ∧ Server.serve_admin w st r
         = Http.Sent
             {| Http.status := 200;
                Http.headers := Server.html_headers;
                Http.content :=
                  Http.Text
                    (Str.replace More.placeholder
                       (Str.join "" (map Server.table_row records))
                       content) |})
  ∧ (∀ w st content,
       Spec.rowid_order (App.db st) →
       App.logged_in st = true →
       App.templates w !! "admin.html" = Some content →
       ∃ records,
         Permutation records (Sqlite.rows (App.db st))
         ∧ StronglySorted More.after records
         ∧ App.admin_dashboard w st
           = (Http.Sent
                {| Http.status := 200;
                   Http.headers := [("Content-Type", "text/html; charset=utf-8")];
                   Http.content := Http.Template "admin.html" records |},
              st)).
Proof.
  split.
  - intros w st r content Hord Ha Ht.
    exists (Sqlite.order_by_timestamp_desc (Server.db st)).
    split; [apply sort_perm |]. split; [now apply sort_after |].
    unfold Server.serve_admin. now rewrite Ha, Ht.
  - intros w st content Hord Hl Ht.
    exists (Sqlite.order_by_timestamp_desc (App.db st)).
    split; [apply sort_perm |]. split; [now apply sort_after |].
    unfold App.admin_dashboard, App.render_template. now rewrite Hl, Ht.
Qed.

(** The theorem on the dashboard at the table of three rows: two rows of
    the same timestamp and one of an earlier one. *)
Lemma dashboard_latest_first_witness :
  ∃ records,
    Permutation records (Sqlite.rows Sample.three_rows)
    ∧ StronglySorted More.after records
    ∧ App.admin_dashboard More.app_world_with_admin
        {| App.db := Sample.three_rows;
           App.session := {[ "admin_logged_in" := Py.Bool true ]} |}
      = (Http.Sent
           {| Http.status := 200;
              Http.headers := [("Content-Type", "text/html; charset=utf-8")];
              Http.content := Http.Template "admin.html" records |},
         {| App.db := Sample.three_rows;
            App.session := {[ "admin_logged_in" := Py.Bool true ]} |}).
Proof.
  apply (proj2 (@dashboard_latest_first Sample.float_text_sample)
           More.app_world_with_admin
           {| App.db := Sample.three_rows;
              App.session := {[ "admin_logged_in" := Py.Bool true ]} |}
           "<html></html>").
  - exact three_rows_rowid_order.
  - reflexivity.
  - reflexivity.
Defined.

(* ===================================================================== *)
(** ** The dashboard page of server.py *)

Lemma replace_from_skip old new skipped s :
  Str.replace_from (String.length skipped) old new (skipped +:+ s)
  = Str.replace_from 0 old new s.
Proof.
  induction skipped as [| c skipped IH]; [reflexivity |].
  rewrite append_cons. destruct s; exact IH.
Qed.

Lemma replace_absent old new s :
  More.occurs old s = false → Str.replace old new s = s.
Proof.
  unfold Str.replace. induction s as [| c s IH]; [reflexivity |].
  intros Ho. cbn [More.occurs] in Ho.
  apply orb_false_iff in Ho as [Hp Ho].
  cbn [Str.replace_from]. rewrite Hp. f_equal. now apply IH.
Qed.

Lemma replace_at_first old new pre post :
  old ≠ "" →
  More.clear_before old pre (old +:+ post) = true →
  Str.replace old new (pre +:+ old +:+ post)
  = pre +:+ new +:+ Str.replace old new post.
Proof.
  intros Hne. unfold Str.replace.
  induction pre as [| c pre IH]; intros Hc.
  - destruct old as [| c old]; [congruence |].
    change ("" +:+ String c old +:+ post) with (String c (old +:+ post)).
    cbn [Str.replace_from].
    pose proof (prefix_append (String c old) post) as Hp.
    rewrite append_cons in Hp. rewrite Hp.
    replace (String.length (String c old) - 1)%nat with (String.length old)
      by (cbn [String.length]; lia).
    now rewrite replace_from_skip.
  - cbn [More.clear_before] in Hc. apply andb_prop in Hc as [Hp Hc].
    apply negb_true_iff in Hp.
    rewrite append_cons in Hp. rewrite !append_cons. cbn [Str.replace_from].
    rewrite Hp. f_equal. now apply IH.
Qed.

(** X10: how server.py fills the dashboard template.  When the template
    holds the placeholder comment, its first occurrence is where the rows
    go, the text before it is kept, the rows themselves are not searched
    again, and the text after it is filled in the same way; with one
    occurrence the page is the template with the rows in the place of the
    comment.  When the template does not hold the comment, the page is the
    template itself and no record is shown. *)
Theorem dashboard_page `{FloatText} w st r content :
  Server.is_authenticated st r = true →
  Server.templates w !! "admin.html" = Some content →
  let rows_html :=
    Str.join ""
      (map Server.table_row (Sqlite.order_by_timestamp_desc (Server.db st))) in
  let page text :=
    Http.Sent {| Http.status := 200;
                 Http.headers := Server.html_headers;
                 Http.content := Http.Text text |} in
  (∀ pre post,
     content = pre +:+ More.placeholder +:+ post →
     More.clear_before More.placeholder pre (More.placeholder +:+ post) = true →
     Server.serve_admin w st r
     = page (pre +:+ rows_html +:+ Str.replace More.placeholder rows_html post)
     ∧ (More.occurs More.placeholder post = false →
        Server.serve_admin w st r = page (pre +:+ rows_html +:+ post)))
  ∧ (More.occurs More.placeholder content = false →
     Server.serve_admin w st r = page content).
Proof.
  intros Ha Ht rows_html page.
  assert (Hs : Server.serve_admin w st r
               = page (Str.replace More.placeholder rows_html content)).
  { unfold Server.serve_admin. now rewrite Ha, Ht. }
  split.
  - intros pre post -> Hc.
    assert (Hr : Str.replace More.placeholder rows_html
                   (pre +:+ More.placeholder +:+ post)
                 = pre +:+ rows_html
                   +:+ Str.replace More.placeholder rows_html post).
    { apply replace_at_first; [discriminate | assumption]. }
    split.
    + now rewrite Hs, Hr.
    + intros Ho. rewrite Hs, Hr. now rewrite (replace_absent _ _ post Ho).
  - intros Ho. rewrite Hs. now rewrite replace_absent.
Qed.

(** The theorem on the page at a template with one placeholder between
    the tags of a table, for a logged-in session and the table of three
    rows. *)
Lemma dashboard_page_witness :
  @Server.serve_admin Sample.float_text_sample
    (More.world_with_admin ("<table>" +:+ More.placeholder +:+ "</table>"))
    {| Server.db := Sample.three_rows;
       Server.sessions := {[ "tok-1" := true ]} |}
    (Sample.get_request "/admin" (Some "session_id=tok-1"))
  = Http.Sent
      {| Http.status := 200;
         Http.headers := Server.html_headers;
         Http.content :=
           Http.Text
             ("<table>"
              +:+ Str.join ""
                    (map (@Server.table_row Sample.float_text_sample)
                       (Sqlite.order_by_timestamp_desc Sample.three_rows))
              +:+ "</table>") |}.
Proof.
  assert (Ha : Server.is_authenticated
                 {| Server.db := Sample.three_rows;
                    Server.sessions := {[ "tok-1" := true ]} |}
                 (Sample.get_request "/admin" (Some "session_id=tok-1"))
               = true) by (vm_compute; reflexivity).
  assert (Ht : Server.templates
                 (More.world_with_admin
                    ("<table>" +:+ More.placeholder +:+ "</table>"))
               !! "admin.html"
               = Some ("<table>" +:+ More.placeholder +:+ "</table>"))
    by (vm_compute; reflexivity).
  apply (proj2
           (proj1
              (@dashboard_page Sample.float_text_sample _ _ _ _ Ha Ht)
              "<table>" "</table>" eq_refl eq_refl)).
  reflexivity.
Defined.

(* ===================================================================== *)
(** ** Reading the export of server.py back *)

Lemma mem_join c sep pieces :
  Str.mem c sep = false →
  Forall (fun p => Str.mem c p = false) pieces →
  Str.mem c (Str.join sep pieces) = false.
Proof.
  intros Hsep. induction 1 as [| p pieces Hp _ IH]; [reflexivity |].
  destruct pieces as [| q pieces]; [exact Hp |].
  change (Str.join sep (p :: q :: pieces))
    with (p +:+ sep +:+ Str.join sep (q :: pieces)).
  now rewrite !mem_append, Hp, Hsep, IH.
Qed.

Lemma clean_cell cell :
  More.clean cell = true →
  Str.mem "," cell = false ∧ Str.mem (ascii_of_nat 10) cell = false.
Proof.
  unfold More.clean. intros Hc. apply andb_prop in Hc as [Hc Hl].
  now apply negb_true_iff in Hc, Hl.
Qed.

(** X11: the export of server.py can be read back when no cell holds a
    comma or a line feed: its text cut at the line feeds, and each line at
    the commas, gives the header cells and then the five cells of each
    record, in the order of the export. *)
Theorem server_export_reads_back `{FloatText} t :
  Forall (fun rec => Forall (fun cell => More.clean cell = true)
                            (App.csv_fields rec))
         (Sqlite.rows t) →
  map (Str.split ",") (Str.split (ascii_of_nat 10) (Server.csv_data t))
  = App.csv_header :: map App.csv_fields (Sqlite.order_by_timestamp t).
Proof.
  intros Hclean.
  apply (Permutation_Forall (Permutation_sym (sort_perm Sqlite.timestamp_le _)))
    in Hclean.
  fold (Sqlite.order_by_timestamp t) in Hclean.
  unfold Server.csv_data.
  rewrite split_join.
  - cbn [map]. f_equal.
    induction Hclean as [| rec recs Hrec _ IH]; [reflexivity |].
    cbn [map]. f_equal; [| exact IH].
    rewrite server_csv_line. apply (split_join ","%char).
    + discriminate.
    + eapply Forall_impl; [exact Hrec |].
      intros cell Hc. now apply clean_cell in Hc.
  - discriminate.
  - constructor; [reflexivity |].
    apply Forall_map.
    eapply Forall_impl; [exact Hclean |].
    intros rec Hrec. cbn beta. rewrite server_csv_line.
    apply mem_join; [reflexivity |].
    eapply Forall_impl; [exact Hrec |].
    intros cell Hc. now apply clean_cell in Hc.
Qed.

(** The theorem on reading the export at the table of three rows. *)
Lemma server_export_reads_back_witness :
  map (Str.split ",")
      (Str.split (ascii_of_nat 10)
         (@Server.csv_data Sample.float_text_sample Sample.three_rows))
  = App.csv_header
    :: map (@App.csv_fields Sample.float_text_sample)
         (Sqlite.order_by_timestamp Sample.three_rows).
Proof.
  apply (@server_export_reads_back Sample.float_text_sample Sample.three_rows).
  repeat (constructor; try reflexivity).
Defined.

(* ===================================================================== *)
(** ** A body that is JSON but no object *)

(** X12: a punch whose body is valid JSON but not an object (a list, a
    string, a number, a boolean, null) is not answered with a 400: in both
    servers the first [data.get] raises AttributeError, the exception
    escapes the handler and nothing is stored.  In app.py the same happens
    when [get_json] returns None. *)
Theorem punch_of_non_object `{FloatText} :
  (∀ w st r body data,
     Server.read_body r = Ok body →
     Server.json_loads body = Some data →
     (∀ d, data ≠ Py.Dict d) →
     Server.handle_punch w st r = (Http.Failed AttributeError, st))
  ∧ (∀ w st r,
       App.get_json r = App.Nothing
       ∨ (∃ data, App.get_json r = App.Decoded data ∧ ∀ d, data ≠ Py.Dict d) →
       App.punch w st r = (Http.Failed AttributeError, st)).
Proof.
  split.
  - intros w st r body data Hb Hj Hd. unfold Server.handle_punch.
    rewrite Hb, Hj. destruct data; try reflexivity. now destruct (Hd d).
  - intros w st r [Hn | (data & Hj & Hd)]; unfold App.punch.
    + now rewrite Hn.
    + rewrite Hj. destruct data; try reflexivity. now destruct (Hd d).
Qed.

(** The theorem on a body that is no object at the body [[]]. *)
Lemma punch_of_non_object_witness :
  @Server.handle_punch Sample.float_text_sample Sample.world Sample.state
    {| Server.path := "/punch";
       Server.cookie := None;
       Server.read_body :=
         Ok {| Server.json_loads := Some (Py.List []);
               Server.parse_qs := Ok ∅ |} |}
  = (Http.Failed AttributeError, Sample.state).
Proof.
  apply (proj1 (@punch_of_non_object Sample.float_text_sample)
           Sample.world Sample.state _
           {| Server.json_loads := Some (Py.List []);
              Server.parse_qs := Ok ∅ |}
           (Py.List [])).
  - reflexivity.
  - reflexivity.
  - discriminate.
Defined.

(* ===================================================================== *)
(** ** A login form with fields missing *)

(** X13: a login form with fields missing.  server.py reads a missing field
    as the empty string and never fails on it: a form with neither field is
    accepted exactly when both configured credentials are empty, and
    refused with the usual redirect otherwise.  app.py reads a missing field
    as None: with a user name that is missing or wrong the password is not
    looked at and the login is refused; with the right user name and no
    password field [check_password_hash] raises and the exception escapes
    the view. *)
Theorem login_with_missing_fields `{Cred.Hasher} :
  (∀ w st r body params,
     Server.read_body r = Ok body →
     Server.parse_qs body = Ok params →
     params !! "username" = None →
     params !! "password" = None →
     Server.handle_login w st r
     = if String.eqb (Server.admin_username w) ""
          && String.eqb (Server.admin_password w) ""
       then
         (Http.Sent
            {| Http.status := 302;
               Http.headers :=
                 [("Location", "/admin");
                  ("Set-Cookie",
                   "session_id=" +:+ Server.uuid4 w +:+ "; HttpOnly; Path=/")];
               Http.content := Http.NoBody |},
          {| Server.db := Server.db st;
             Server.sessions :=
               <[Server.uuid4 w := true]> (Server.sessions st) |})
       else (Http.Sent (Http.redirect "/admin/login?error=1"), st))
  ∧ (∀ c w st r,
       App.is_post r = true →
       App.form r !! "username" ≠ Some (App.ADMIN_USERNAME c) →
       ∃ session',
         App.admin_login c w st r
         = (Http.Sent (Http.redirect "/admin/login"),
            {| App.db := App.db st; App.session := session' |})
         ∧ session' !! "admin_logged_in" = App.session st !! "admin_logged_in")
  ∧ (∀ c w st r,
       App.is_post r = true →
       App.form r !! "username" = Some (App.ADMIN_USERNAME c) →
       App.form r !! "password" = None →
       App.admin_login c w st r = (Http.Failed AttributeError, st)).
Proof.
  repeat apply conj.
  - intros w st r body params Hb Hq Hu Hp.
    rewrite (server_login_cases w st r body params "" "" Hb Hq).
    + now rewrite (String.eqb_sym "" (Server.admin_username w)),
        (String.eqb_sym "" (Server.admin_password w)).
    + unfold Server.first_value. now rewrite Hu.
    + unfold Server.first_value. now rewrite Hp.
  - intros c w st r Hpost Hu. unfold App.admin_login. rewrite Hpost.
    cbn [App.login_condition Cred.all_hold Cred.holds App.login_data bind].
    assert (E : Cred.eq_opt (App.form r !! "username")
                            (Some (App.ADMIN_USERNAME c)) = false).
    { destruct (App.form r !! "username") as [u |]; [| reflexivity].
      cbn [Cred.eq_opt]. apply String.eqb_neq. congruence. }
    rewrite E. cbn [bind]. eexists. split; [reflexivity |].
    apply flash_keeps_login.
  - intros c w st r Hpost Hu Hp. unfold App.admin_login. rewrite Hpost.
    cbn [App.login_condition Cred.all_hold Cred.holds App.login_data bind].
    rewrite Hu, Hp. cbn [Cred.eq_opt]. now rewrite String.eqb_refl.
Qed.

(** The theorem on missing fields at a POST of app.py that holds the user
    name admin and no password. *)
Lemma login_with_missing_fields_witness :
  @App.admin_login Sample.hasher_sample
    (@App.configure Sample.hasher_sample ∅) Sample.app_world Sample.app_state
    {| App.is_post := true;
       App.get_json := App.Nothing;
       App.form := {[ "username" := "admin" ]} |}
  = (Http.Failed AttributeError, Sample.app_state).
Proof.
  apply (proj2 (proj2 (@login_with_missing_fields Sample.hasher_sample))).
  - reflexivity.
  - reflexivity.
  - reflexivity.
Defined.

(* ===================================================================== *)
(** ** The session of app.py *)

Lemma app_logged_in_insert db (s : gmap string Py.value) :
  App.logged_in
    {| App.db := db; App.session := <["admin_logged_in" := Py.Bool true]> s |}
  = true.
Proof.
  unfold App.logged_in. cbn [App.session]. now rewrite lookup_insert_eq.
Qed.

Lemma app_logged_in_flash db message category (s : gmap string Py.value) :
  App.logged_in
    {| App.db := db; App.session := App.flash message category s |}
  = App.logged_in {| App.db := db; App.session := s |}.
Proof.
  unfold App.logged_in. cbn [App.session]. now rewrite flash_keeps_login.
Qed.

Lemma app_logged_in_delete db (s : gmap string Py.value) :
  App.logged_in
    {| App.db := db; App.session := delete "admin_logged_in" s |}
  = false.
Proof.
  unfold App.logged_in. cbn [App.session]. now rewrite lookup_delete_eq.
Qed.

Section AppSession.
Context `{FloatText} `{Cred.Hasher}.

Lemma app_punch_session w st r :
  App.session (snd (App.punch w st r)) = App.session st.
Proof.
  unfold App.punch.
  destruct (App.get_json r) as [data | |]; try reflexivity;
    (destruct (let* employee_id := Py.get _ "employee_id" in _)
       as [[[[e a] la] lo] |]; [| reflexivity];
     destruct (negb (Py.truthy e) || _); [reflexivity |];
     destruct (negb (Py.in_strs a _)); [reflexivity |];
     destruct (Sqlite.insert _ _ _ _ _ _); reflexivity).
Qed.

(** X14: the login mark of app.py.  A session that is marked as logged in
    stays so through every view but [admin_logout], a refused login
    included; a session comes out of a view marked only if it went in
    marked or the view is [admin_login] on a POST whose credentials pass;
    and it never comes out of [admin_logout] marked. *)
Theorem app_login_mark c e w st r :
  (App.logged_in st = true → e ≠ App.AdminLogout →
   App.logged_in (snd (App.view c e w st r)) = true)
  ∧ (App.logged_in (snd (App.view c e w st r)) = true →
     App.logged_in st = true
     ∨ (e = App.AdminLogin ∧ App.is_post r = true
        ∧ Cred.all_hold (App.login_data c r) App.login_condition = Ok true))
  ∧ App.logged_in (snd (App.view c App.AdminLogout w st r)) = false.
Proof.
  assert (Hpunch : App.logged_in (snd (App.punch w st r)) = App.logged_in st).
  { unfold App.logged_in. now rewrite app_punch_session. }
  repeat apply conj.
  - intros Hl Hne. destruct e; cbn [App.view App.index snd]; try assumption.
    + now rewrite Hpunch.
    + unfold App.admin_login. destruct (App.is_post r); [| assumption].
      destruct (Cred.all_hold _ _) as [[|] |]; cbn [snd].
      * apply app_logged_in_insert.
      * now rewrite app_logged_in_flash.
      * assumption.
    + unfold App.admin_dashboard. now destruct (negb _).
    + congruence.
    + unfold App.export_csv. now destruct (negb _).
  - intros Hl. destruct e; cbn [App.view App.index snd] in Hl;
      try (now left).
    + left. now rewrite Hpunch in Hl.
    + unfold App.admin_login in Hl.
      destruct (App.is_post r); [| now left].
      destruct (Cred.all_hold _ _) as [[|] |]; cbn [snd] in Hl.
      * right. now repeat split.
      * left. now rewrite app_logged_in_flash in Hl.
      * now left.
    + left. unfold App.admin_dashboard in Hl. now destruct (negb _).
    + unfold App.admin_logout in Hl. cbn [snd] in Hl.
      now rewrite app_logged_in_delete in Hl.
    + left. unfold App.export_csv in Hl. now destruct (negb _).
  - apply app_logged_in_delete.
Qed.

(** X15: login, dashboard, logout in app.py.  After a POST of the
    configured user name and a password the configured hash accepts, the
    answer is a redirect to /admin and the session the client holds is
    marked; with it the dashboard is rendered with the records, latest
    first; [admin_logout] redirects to the login form and takes the mark
    away, after which the dashboard redirects to /admin/login again.  The
    table is the same throughout. *)
Theorem app_login_dashboard_logout c w st r password content :
  App.is_post r = true →
  App.form r !! "username" = Some (App.ADMIN_USERNAME c) →
  App.form r !! "password" = Some password →
  Cred.check_password_hash (App.ADMIN_PASSWORD_HASH c) password = true →
  App.templates w !! "admin.html" = Some content →
  let st1 := snd (App.admin_login c w st r) in
  let st2 := snd (App.admin_logout st1) in
  fst (App.admin_login c w st r) = Http.Sent (Http.redirect "/admin")
  ∧ App.logged_in st1 = true
  ∧ App.admin_dashboard w st1
    = (Http.Sent
         {| Http.status := 200;
            Http.headers := [("Content-Type", "text/html; charset=utf-8")];
            Http.content :=
              Http.Template "admin.html"
                (Sqlite.order_by_timestamp_desc (App.db st)) |},
       st1)
  ∧ fst (App.admin_logout st1) = Http.Sent (Http.redirect "/admin/login")
  ∧ App.logged_in st2 = false
  ∧ App.admin_dashboard w st2 = (Http.Sent (Http.redirect "/admin/login"), st2)
  ∧ App.db st2 = App.db st.
Proof.
  intros Hpost Hu Hp Hhash Ht.
  assert (Hlogin : App.admin_login c w st r
                   = (Http.Sent (Http.redirect "/admin"),
                      {| App.db := App.db st;
                         App.session :=
                           <["admin_logged_in" := Py.Bool true]>
                             (App.session st) |})).
  { unfold App.admin_login. rewrite Hpost.
    cbn [App.login_condition Cred.all_hold Cred.holds App.login_data bind].
    rewrite Hu, Hp. cbn [Cred.eq_opt bind].
    now rewrite String.eqb_refl, Hhash. }
  rewrite Hlogin. cbn [fst snd]. cbv zeta.
  split; [reflexivity |].
  split; [apply app_logged_in_insert |].
  split.
  { unfold App.admin_dashboard, App.render_template.
    now rewrite app_logged_in_insert, Ht. }
  split; [reflexivity |].
  unfold App.admin_logout. cbn [snd App.db App.session].
  split; [apply app_logged_in_delete |].
  split; [| reflexivity].
  unfold App.admin_dashboard. now rewrite app_logged_in_delete.
Qed.

End AppSession.

(** The theorem on the login mark at a refused login of a session that is
    logged in. *)
Lemma app_login_mark_witness :
  App.logged_in
    (snd (@App.view Sample.float_text_sample Sample.hasher_sample
            (@App.configure Sample.hasher_sample ∅) App.AdminLogin
            Sample.app_world
            {| App.db := Sqlite.empty;
               App.session := {[ "admin_logged_in" := Py.Bool true ]} |}
            (Sample.app_login_request "admin" "nope")))
  = true.
Proof.
  apply (proj1 (@app_login_mark Sample.float_text_sample Sample.hasher_sample
                  _ App.AdminLogin _ _ _)).
  - reflexivity.
  - discriminate.
Defined.

(** The theorem on the three steps at the login admin / admin123 of the
    default configuration. *)
Lemma app_login_dashboard_logout_witness :
  App.logged_in
    (snd (@App.admin_login Sample.hasher_sample
            (@App.configure Sample.hasher_sample ∅) More.app_world_with_admin
            Sample.app_state (Sample.app_login_request "admin" "admin123")))
  = true.
Proof.
  assert (Hhash : @Cred.check_password_hash Sample.hasher_sample
                    (App.ADMIN_PASSWORD_HASH
                       (@App.configure Sample.hasher_sample ∅))
                    "admin123" = true)
    by (apply sample_hash_exact; reflexivity).
  exact (proj1 (proj2
           (@app_login_dashboard_logout Sample.hasher_sample
              (@App.configure Sample.hasher_sample ∅)
              More.app_world_with_admin Sample.app_state
              (Sample.app_login_request "admin" "admin123")
              "admin123" "<html></html>"
              eq_refl eq_refl eq_refl Hhash eq_refl))).
Defined.

(* ===================================================================== *)
(** ** The routes of the two servers *)


Section Routes.
Context `{FloatText} `{Cred.Hasher}.







End Routes.


(* ===================================================================== *)
(** ** The export when the clock never goes back *)

Lemma strongly_sorted_without {A} (R : A → A → Prop) l1 x l2 :
  StronglySorted R (l1 ++ x :: l2) → StronglySorted R (l1 ++ l2).
Proof.
  induction l1 as [| y l1 IH]; simpl; intros Hs.
  - now apply StronglySorted_inv in Hs.
  - apply StronglySorted_inv in Hs as [Hs Hy]. constructor.
    + now apply IH.
    + apply Forall_app in Hy as [Hy1 Hy2]. apply Forall_app. split.
      * assumption.
      * now apply Forall_cons_iff in Hy2.
Qed.

Lemma strongly_sorted_front {A} (R : A → A → Prop) l1 l2 :
  StronglySorted R (l1 ++ l2) → StronglySorted R l1.
Proof.
  induction l1 as [| y l1 IH]; simpl; intros Hs; [constructor |].
  apply StronglySorted_inv in Hs as [Hs Hy]. constructor.
  - now apply IH.
  - now apply Forall_app in Hy.
Qed.

(** The stable sort leaves a list alone that is in order already. *)
Lemma sort_in_order l :
  More.never_back (map Sqlite.timestamp l) →
  Sqlite.sort Sqlite.timestamp_le l = l.
Proof.
  unfold More.never_back. induction l as [| x l IH]; [reflexivity |].
  cbn [map]. intros Hs. apply StronglySorted_inv in Hs as [Hs Hx].
  change (Sqlite.sort Sqlite.timestamp_le (x :: l))
    with (Sqlite.insert_sorted Sqlite.timestamp_le x
            (Sqlite.sort Sqlite.timestamp_le l)).
  rewrite (IH Hs). destruct l as [| y l]; [reflexivity |].
  cbn [Sqlite.insert_sorted]. unfold Sqlite.timestamp_le at 1.
  cbn [map] in Hx. apply Forall_cons_iff in Hx as [Hxy _]. now rewrite Hxy.
Qed.

Lemma insert_timestamp `{FloatText} t e a now la lo t' :
  Sqlite.insert t e a (Py.Str now) la lo = Ok t' →
  ∃ row, Sqlite.rows t' = Sqlite.rows t ++ [row] ∧ Sqlite.timestamp row = now.
Proof.
  unfold Sqlite.insert.
  destruct (Sqlite.bind_param e); simpl; [| discriminate].
  destruct (Sqlite.bind_param a); simpl; [| discriminate].
  destruct (Sqlite.bind_param la); simpl; [| discriminate].
  destruct (Sqlite.bind_param lo); simpl; [| discriminate].
  destruct (Sqlite.text_not_null _); simpl; [| discriminate].
  destruct (Sqlite.text_not_null _); simpl; [| discriminate].
  intros [= <-]. simpl. eexists. split; reflexivity.
Qed.

Section Arrival.
Context `{FloatText} `{Cred.Hasher}.

(** What a request does to the rows: nothing, or one row more, stamped
    with the clock of the request. *)
Lemma server_handle_rows m w st r :
  Sqlite.rows (Server.db (snd (Server.handle m w st r)))
  = Sqlite.rows (Server.db st)
  ∨ ∃ row,
      Sqlite.rows (Server.db (snd (Server.handle m w st r)))
      = Sqlite.rows (Server.db st) ++ [row]
      ∧ Sqlite.timestamp row = Server.utcnow_isoformat w.
Proof.
  destruct m; cbn [Server.handle].
  - left. destruct (server_get_state w st r) as [-> | [_ ->]]; reflexivity.
  - unfold Server.do_POST.
    destruct (String.eqb _ _).
    + unfold Server.handle_punch.
      destruct (Server.read_body r) as [body |]; [| now left].
      destruct (Server.json_loads body) as [data |]; [| now left].
      destruct (let* employee_id := Py.get data "employee_id" in _)
        as [[[[e a] la] lo] |]; [| now left].
      destruct (negb (Py.truthy e) || _); [now left |].
      destruct (Sqlite.insert _ _ _ _ _ _) eqn:Hi; [| now left].
      right. cbn [snd Server.db]. eapply insert_timestamp. eassumption.
    + left. destruct (String.eqb _ _); [| reflexivity].
      now rewrite server_login_db.
Qed.

Lemma app_view_rows c e w st r :
  Sqlite.rows (App.db (snd (App.view c e w st r))) = Sqlite.rows (App.db st)
  ∨ ∃ row,
      Sqlite.rows (App.db (snd (App.view c e w st r)))
      = Sqlite.rows (App.db st) ++ [row]
      ∧ Sqlite.timestamp row = App.utcnow_isoformat w.
Proof.
  destruct e; cbn [App.view App.index snd]; try (now left).
  - unfold App.punch.
    destruct (App.get_json r) as [data | |]; try (now left);
      (destruct (let* employee_id := Py.get _ "employee_id" in _)
         as [[[[e a] la] lo] |]; [| now left];
       destruct (negb (Py.truthy e) || _); [now left |];
       destruct (negb (Py.in_strs a _)); [now left |];
       destruct (Sqlite.insert _ _ _ _ _ _) eqn:Hi; [| now left];
       right; cbn [snd App.db]; eapply insert_timestamp; eassumption).
  - left. unfold App.admin_login. destruct (App.is_post r); [| reflexivity].
    destruct (Cred.all_hold _ _) as [[|] |]; reflexivity.
  - left. unfold App.admin_dashboard. now destruct (negb _).
  - left. unfold App.export_csv. now destruct (negb _).
Qed.

Lemma never_back_step (stamps : list string) now clocks rows' :
  More.never_back (stamps ++ now :: clocks) →
  rows' = stamps ∨ rows' = stamps ++ [now] →
  More.never_back (rows' ++ clocks).
Proof.
  unfold More.never_back. intros Hs [-> | ->].
  - eapply strongly_sorted_without. eassumption.
  - now rewrite <- app_assoc.
Qed.

(** X17: when the clock never goes back, the export is in the order of
    arrival.  If the timestamps already in the table, followed by the
    clocks of the requests of a run, are in ascending order (equal ones
    allowed), then after the run the export query of either server returns
    the rows in the order they were inserted. *)
Theorem export_in_arrival_order :
  (∀ reqs st,
     More.never_back
       (map Sqlite.timestamp (Sqlite.rows (Server.db st))
        ++ map More.clock reqs) →
     Sqlite.order_by_timestamp (Server.db (Server.run st reqs))
     = Sqlite.rows (Server.db (Server.run st reqs)))
  ∧ (∀ c reqs t,
       More.never_back
         (map Sqlite.timestamp (Sqlite.rows t) ++ map More.app_clock reqs) →
       Sqlite.order_by_timestamp (App.run c t reqs)
       = Sqlite.rows (App.run c t reqs)).
Proof.
  split.
  - induction reqs as [| [[m w] r] reqs IH]; intros st Hs.
    + cbn [map] in Hs. rewrite app_nil_r in Hs. now apply sort_in_order.
    + cbn [Server.run]. apply IH. cbn [map More.clock] in Hs.
      eapply never_back_step; [exact Hs |].
      destruct (server_handle_rows m w st r) as [-> | (row & -> & <-)];
        [now left | right].
      now rewrite map_app.
  - intros c. induction reqs as [| [[[e w] cookie] r] reqs IH]; intros t Hs.
    + cbn [map] in Hs. rewrite app_nil_r in Hs. now apply sort_in_order.
    + cbn [App.run]. apply IH. cbn [map More.app_clock] in Hs.
      eapply never_back_step; [exact Hs |].
      destruct (app_view_rows c e w {| App.db := t; App.session := cookie |} r)
        as [-> | (row & -> & <-)]; [now left | right].
      now rewrite map_app.
Qed.

End Arrival.

(** The theorem on the order of arrival at two punches of the same clock
    and a third one later. *)
Lemma export_in_arrival_order_witness :
  Sqlite.order_by_timestamp
    (Server.db
       (@Server.run Sample.float_text_sample Sample.hasher_sample Sample.state
          [(Server.POST, Sample.world_at "2024-05-01T09:00:00",
            Sample.punch_request Sample.punch_in);
           (Server.POST, Sample.world_at "2024-05-01T09:00:00",
            Sample.punch_request Sample.punch_out);
           (Server.POST, Sample.world_at "2024-05-01T09:00:00.000001",
            Sample.punch_request Sample.punch_in)]))
  = Sqlite.rows
      (Server.db
         (@Server.run Sample.float_text_sample Sample.hasher_sample
            Sample.state
            [(Server.POST, Sample.world_at "2024-05-01T09:00:00",
              Sample.punch_request Sample.punch_in);
             (Server.POST, Sample.world_at "2024-05-01T09:00:00",
              Sample.punch_request Sample.punch_out);
             (Server.POST, Sample.world_at "2024-05-01T09:00:00.000001",
              Sample.punch_request Sample.punch_in)])).
Proof.
  apply (proj1 (@export_in_arrival_order Sample.float_text_sample
                  Sample.hasher_sample)).
  repeat (constructor; try reflexivity).
Defined.

(* ===================================================================== *)
(** ** One row for each recorded punch *)

Lemma recorded_payload code hs ok message :
  More.recorded
    (Http.Sent {| Http.status := code; Http.headers := hs;
                  Http.content := Http.Json (Http.payload ok message) |})
  = ok.
Proof.
  unfold More.recorded, Http.success_of, Http.payload.
  rewrite lookup_insert_eq. now destruct ok.
Qed.

Section Recorded.
Context `{FloatText} `{Cred.Hasher}.

(** A request either leaves the rows alone and is not answered as a
    recorded punch, or adds one row and is. *)
Lemma server_handle_recorded m w st r :
  length (Sqlite.rows (Server.db (snd (Server.handle m w st r))))
  = (length (Sqlite.rows (Server.db st))
     + if More.recorded (fst (Server.handle m w st r)) then 1 else 0)%nat.
Proof.
  destruct m; cbn [Server.handle].
  - unfold Server.do_GET, Server.serve_static, Server.serve_template,
      Server.serve_admin, Server.handle_export, Server.handle_logout.
    cbv zeta.
    repeat match goal with
           | |- context [if ?b then _ else _] =>
               lazymatch b with
               | context [More.recorded] => fail
               | _ => destruct b
               end
           | |- context [Server.templates w !! ?name] =>
               destruct (Server.templates w !! name)
           end; simpl; lia.
  - unfold Server.do_POST.
    destruct (String.eqb _ _).
    + unfold Server.handle_punch.
      destruct (Server.read_body r) as [body |]; [| simpl; lia].
      destruct (Server.json_loads body) as [data |];
        [| cbn [fst snd]; rewrite recorded_payload; lia].
      destruct (let* employee_id := Py.get data "employee_id" in _)
        as [[[[e a] la] lo] |]; [| simpl; lia].
      destruct (negb (Py.truthy e) || _);
        [cbn [fst snd]; rewrite recorded_payload; lia |].
      destruct (Sqlite.insert _ _ _ _ _ _) eqn:Hi; [| simpl; lia].
      cbn [fst snd Server.db]. rewrite recorded_payload.
      destruct (insert_appends _ _ _ _ _ _ _ Hi) as [row ->].
      rewrite length_app. simpl. lia.
    + destruct (String.eqb _ _); [| simpl; lia].
      unfold Server.handle_login.
      destruct (let* body := Server.read_body r in _) as [[|] |];
        simpl; lia.
Qed.

Lemma app_view_recorded c e w st r :
  length (Sqlite.rows (App.db (snd (App.view c e w st r))))
  = (length (Sqlite.rows (App.db st))
     + if More.recorded (fst (App.view c e w st r)) then 1 else 0)%nat.
Proof.
  destruct e; cbn [App.view].
  - unfold App.index, App.render_template.
    destruct (App.templates w !! "index.html"); simpl; lia.
  - unfold App.punch, App.jsonify.
    destruct (App.get_json r) as [data | |]; try (simpl; lia);
      (destruct (let* employee_id := Py.get _ "employee_id" in _)
         as [[[[e a] la] lo] |]; [| simpl; lia];
       destruct (negb (Py.truthy e) || _);
         [cbn [fst snd]; rewrite recorded_payload; lia |];
       destruct (negb (Py.in_strs a _));
         [cbn [fst snd]; rewrite recorded_payload; lia |];
       destruct (Sqlite.insert _ _ _ _ _ _) eqn:Hi; [| simpl; lia];
       cbn [fst snd App.db]; rewrite recorded_payload;
       destruct (insert_appends _ _ _ _ _ _ _ Hi) as [row ->];
       rewrite length_app; simpl; lia).
  - unfold App.admin_login, App.render_template.
    destruct (App.is_post r).
    + destruct (Cred.all_hold _ _) as [[|] |]; simpl; lia.
    + destruct (App.templates w !! "admin_login.html"); simpl; lia.
  - unfold App.admin_dashboard, App.render_template.
    destruct (negb _); [simpl; lia |].
    destruct (App.templates w !! "admin.html"); simpl; lia.
  - simpl. lia.
  - unfold App.export_csv. destruct (negb _); simpl; lia.
Qed.

(** X18: one row for each recorded punch.  Through any run of requests to
    either server, the table gains exactly as many rows as there are answers
    with a payload whose [success] is true: every punch answered as recorded
    is in the table, and no other request, and no punch answered otherwise,
    adds a row. *)
Theorem rows_count_recorded_punches :
  (∀ reqs st,
     length (Sqlite.rows (Server.db (Server.run st reqs)))
     = (length (Sqlite.rows (Server.db st))
        + length (List.filter More.recorded (More.outcomes st reqs)))%nat)
  ∧ (∀ c reqs t,
       length (Sqlite.rows (App.run c t reqs))
       = (length (Sqlite.rows t)
          + length (List.filter More.recorded (More.app_outcomes c t reqs)))%nat).
Proof.
  split.
  - induction reqs as [| [[m w] r] reqs IH]; intros st.
    + simpl. lia.
    + cbn [Server.run More.outcomes List.filter].
      rewrite IH, server_handle_recorded.
      destruct (More.recorded _); simpl; lia.
  - intros c. induction reqs as [| [[[e w] cookie] r] reqs IH]; intros t.
    + simpl. lia.
    + cbn [App.run More.app_outcomes List.filter]. cbv zeta.
      rewrite IH,
        (app_view_recorded c e w {| App.db := t; App.session := cookie |} r).
      destruct (More.recorded _); simpl; lia.
Qed.

(* ===================================================================== *)
(** ** What the views of app.py leave alone *)


End Recorded.

